(** * PyDenseNetBc: the training-loop utilities and the parameter serializer

    A shallow embedding of
    [examples/models/image_classification/PyDenseNetBc.py]: the
    [RunningAverage] and [EarlyStopCondition] helper classes, the epoch
    loop of [PyDenseNetBc._train_model], and the export / import of shared
    parameters.

    Conventions of the embedding.
    - A Python [int] is a [Z].
    - A Python [float] that [RunningAverage] computes with is a binary64
      number ([float], the primitive floats), with the rounding, overflow
      and underflow of every operation.  Where the source only compares
      floats, the value is a [pyfloat]: the exact rational value of a
      finite float, the two infinities, or NaN.  A float that is only
      stored or passed on (a knob, a normalization statistic) is a [Q].
    - A method that mutates [self] is a function returning the new object
      (and the returned value, if any).
    - A method that can raise returns a [result]. *)

From Stdlib Require Import Floats ZArith QArith Qfield Lia Ascii String.
From stdpp Require Import gmap strings list fin_maps pretty.

Set Implicit Arguments.
Set Maximal Implicit Insertion.

(** ** Python floats, as far as the comparisons of the source need them *)

Inductive pyfloat : Type :=
| Finite (q : Q)
| PosInf
| NegInf
| NaN.

(** [a < b] on rationals, as a boolean. *)
Definition Qltb (a b : Q) : bool :=
  (Qnum a * QDen b <? Qnum b * QDen a)%Z.

(** Python's [a < b] on floats: every comparison with NaN is false. *)
Definition float_lt (a b : pyfloat) : bool :=
  match a, b with
  | NaN, _ | _, NaN => false
  | _, NegInf => false
  | NegInf, _ => true
  | PosInf, _ => false
  | Finite _, PosInf => true
  | Finite x, Finite y => Qltb x y
  end.

(** Python's [a > b]. *)
Definition float_gt (a b : pyfloat) : bool := float_lt b a.

(** What a binary64 number is worth in a comparison: NaN, an infinity, or
    the rational [(-1)^s * m * 2^e] ([+0.0] and [-0.0] are both 0). *)
Definition pyfloat_of (x : float) : pyfloat :=
  match Prim2SF x with
  | S754_nan => NaN
  | S754_infinity false => PosInf
  | S754_infinity true => NegInf
  | S754_zero _ => Finite 0
  | S754_finite s m e =>
      Finite (inject_Z (if s then Z.neg m else Z.pos m) * 2 ^ e)%Q
  end.

(** The conversion of an [int] operand in [float * int] and [float / int]:
    the nearest binary64 number, ties to even.  (Python raises
    [OverflowError] for an integer beyond the range of binary64, from
    about [2^1024]; here it is [infinity].) *)
Definition float_of_int (n : Z) : float :=
  SF2Prim (binary_normalize prec emax n 0 false).

(** ** class RunningAverage *)

Module RunningAverage.

Record t : Type := mk { _avg : float; _count : Z }.

(** [__init__]: [self._avg = 0; self._count = 0].  The integer 0 of
    [_avg] is the float [0.0] here: the first [add] computes
    [0 * 0 / 1], which is [0.0] for both. *)
Definition __init__ : t := {| _avg := 0%float; _count := 0 |}.

(** [add]: the average is updated first, from the old count; then the
    count is incremented.  The values added are floats ([loss.item()] and
    [np.mean(...)]); every operation rounds to binary64. *)
Definition add (self : t) (val : float) : t :=
  let avg' := (_avg self * float_of_int (_count self)
                 / float_of_int (_count self + 1)
               + val / float_of_int (_count self + 1))%float in
  {| _avg := avg'; _count := _count self + 1 |}.

Definition get (self : t) : float := _avg self.

(** The object after [add] has been called on each value of [vals], in
    order, starting from [self]. *)
Definition add_from (self : t) (vals : list float) : t :=
  fold_left add vals self.

(** The same, starting from a fresh object. *)
Definition add_all (vals : list float) : t := add_from __init__ vals.

(** *** The arithmetic mean, and when [add] is exact *)

(** The rational value of a finite float (0 for an infinity or NaN). *)
Definition value (x : float) : Q :=
  match pyfloat_of x with
  | Finite q => q
  | _ => 0
  end.

Definition is_finite (x : float) : bool :=
  match pyfloat_of x with
  | Finite _ => true
  | _ => false
  end.

Definition Qsum (vals : list Q) : Q := fold_right Qplus 0%Q vals.

(** The arithmetic mean of a non-empty list. *)
Definition mean (vals : list Q) : Q :=
  (Qsum vals / inject_Z (Z.of_nat (length vals)))%Q.

(** A call [add(val)] is exact when the old average, the value and the
    new average are finite and the new average is the value that the
    formula has in exact arithmetic: nothing was lost to rounding, overflow
    or underflow. *)
Definition exact_add (self : t) (val : float) : bool :=
  is_finite (_avg self) && is_finite val && is_finite (_avg (add self val))
  && Qeq_bool (value (_avg (add self val)))
       (value (_avg self) * inject_Z (_count self)
          / inject_Z (_count self + 1)
        + value val / inject_Z (_count self + 1))%Q.

(** Every call of a sequence of calls is exact. *)
Fixpoint exact_run (self : t) (vals : list float) : bool :=
  match vals with
  | [] => true
  | val :: rest => exact_add self val && exact_run (add self val) rest
  end.

End RunningAverage.

(** ** class EarlyStopCondition *)

Module EarlyStopCondition.

Record t : Type := mk {
  _patience : Z;
  _if_max : bool;
  _last_best : pyfloat;
  _wait_count : Z
}.

(** [__init__(self, patience=5, if_max=False)]. *)
Definition __init__ (patience : Z) (if_max : bool) : t :=
  {| _patience := patience;
     _if_max := if_max;
     _last_best := if negb if_max then PosInf else NegInf;
     _wait_count := 0 |}.

Definition patience (self : t) : Z := _patience self.

(** The test of the first [if] of [check] after the guard: has [value]
    improved on the best seen, in the configured direction? *)
Definition improved (self : t) (value : pyfloat) : bool :=
  (negb (_if_max self) && float_lt value (_last_best self))
  || (_if_max self && float_gt value (_last_best self)).

(** The reading of that test in words: [value] strictly improves on the
    best seen, less-than when minimizing, greater-than when maximizing. *)
Definition strictly_improves (self : t) (value : pyfloat) : bool :=
  if _if_max self then float_gt value (_last_best self)
  else float_lt value (_last_best self).

(** [check]: returns the object after the call and the returned boolean. *)
Definition check (self : t) (value : pyfloat) : t * bool :=
  if (_patience self <? 0)%Z then (self, false)
  else
    let self' :=
      if improved self value
      then {| _patience := _patience self; _if_max := _if_max self;
              _last_best := value; _wait_count := 0 |}
      else {| _patience := _patience self; _if_max := _if_max self;
              _last_best := _last_best self;
              _wait_count := _wait_count self + 1 |} in
    if (_wait_count self' >=? _patience self')%Z then (self', true)
    else (self', false).

(** A sequence of calls of [check] on one object: the successive objects
    and returned booleans. *)
Fixpoint check_all (self : t) (values : list pyfloat) : list (t * bool) :=
  match values with
  | [] => []
  | value :: rest =>
      let r := check self value in
      r :: check_all (fst r) rest
  end.

End EarlyStopCondition.

(** ** Python exceptions and strings *)

Inductive exn : Type := RuntimeError | KeyError | TypeError.

Inductive result (A : Type) : Type :=
| Ok (a : A)
| Raise (e : exn).
Arguments Raise {A} e.

(** [s.split(sep)] for a one-character separator. *)
Fixpoint split (sep : Ascii.ascii) (s : string) : list string :=
  match s with
  | EmptyString => [EmptyString]
  | String c s' =>
      if Ascii.eqb c sep then EmptyString :: split sep s'
      else match split sep s' with
           | [] => [String c EmptyString]
           | w :: ws => String c w :: ws
           end
  end.

(** [sep.join(words)]. *)
Fixpoint join (sep : string) (words : list string) : string :=
  match words with
  | [] => EmptyString
  | w :: ws =>
      match ws with
      | [] => w
      | _ :: _ => w +:+ sep +:+ join sep ws
      end
  end.

(** [s.startswith(p)]. *)
Definition startswith (s p : string) : bool := String.prefix p s.

(** [range(n)]. *)
Definition range (n : Z) : list Z := map Z.of_nat (seq 0 (Z.to_nat n)).

(** ** class PyDenseNetBc *)

Module PyDenseNetBc.

(** The knobs read by the class (the keyword arguments of [__init__]). *)
Record Knobs : Type := {
  max_trial_epochs : Z;
  lr : Q;
  lr_decay : Q;
  opt_momentum : Q;
  opt_weight_decay : Q;
  batch_size : Z;
  drop_rate : Q;
  max_image_size : Z;
  max_train_val_samples : Z;
  early_stop_patience_epochs : Z;
  if_share_params : bool
}.

(** The pre-processing parameters saved next to the weights. *)
Record TrainParams : Type := {
  norm_mean : list Q;
  norm_std : list Q;
  image_size : Z;
  N : Z;
  K : Z
}.

(** What the training loop reports: the calls to [utils.logger] in program
    order, and the calls of [early_stop_condition.check] with the value
    passed and the boolean returned. *)
Inductive event : Type :=
| DefinePlot (title : string)
| Message (msg : string)
| RunningEpoch (epoch : Z)
| TrainMetrics (epoch step : Z) (train_loss train_acc : float)
| TrainValMetrics (epoch : Z) (train_val_loss train_val_acc : float)
| EarlyStopCheck (value : float) (stop : bool)
| NotImproved (patience : Z).

Section Framework.

(** *** The deep-learning framework

    PyTorch and NumPy are outside the repository; the class is embedded
    over their operations. *)

(** [torch.Tensor] and [numpy.ndarray]. *)
Variables Tensor NdArray : Type.
(** [tensor.shape]. *)
Variable shape : Tensor -> list nat.
(** [tensor.cpu().numpy()] and [torch.from_numpy(array)]. *)
Variable numpy : Tensor -> NdArray.
Variable from_numpy : NdArray -> Tensor.
(** [np.asarray(step)] of an integer and [int(array)], which fails unless
    the array holds exactly one element. *)
Variable asarray : Z -> NdArray.
Variable int_of : NdArray -> option Z.

(** A network is identified with its state dict: the names of its
    parameters and buffers (the architecture) and their tensors. *)
Abbreviation Net := (gmap string Tensor).

(** [DenseNet(num_classes=K, drop_rate=drop_rate)]: a freshly
    initialised network. *)
Variable DenseNet : Z -> Q -> Net.

(** The optimizer together with its learning-rate scheduler. *)
Variable Optim : Type.
(** [_get_optimizer(net, trial_epochs)]: SGD and MultiStepLR, built from
    the knobs. *)
Variable _get_optimizer : Knobs -> Net -> Z -> Optim.
Variable scheduler_step : Optim -> Optim.

(** Datasets and mini-batches.  [DataLoader dataset batch_size shuffle
    epoch] is the list of batches that iterating the loader yields during
    [epoch] (a shuffling loader draws a new order at every iteration). *)
Variables Sample Batch : Type.
Variable DataLoader : list Sample -> Z -> bool -> Z -> list Batch.

(** One training batch: forward pass, cross-entropy loss, accuracy,
    backward pass and optimizer step.  Returns the updated network and
    optimizer, [loss.item()] and [acc]. *)
Variable train_batch : Net -> Optim -> Batch -> Net * Optim * float * float.
(** One train-val batch: forward pass, loss and accuracy only (the
    network is still in training mode, so its buffers may change). *)
Variable train_val_batch : Net -> Batch -> Net * float * float.

Variable cuda_is_available : bool.

(** [torch.nn.Module.load_state_dict(state_dict, strict=True)], after the
    documentation of PyTorch.  Every entry of the network whose name is in
    [state_dict] is overwritten by the given tensor, after a check that the
    shapes agree.  A shape mismatch is always an error; a name of the
    network missing from [state_dict], or a name of [state_dict] unknown to
    the network, is an error only when [strict].  Any such error is a
    [RuntimeError]. *)
Definition missing_keys (net state_dict : Net) : gset string :=
  dom net ∖ dom state_dict.

Definition unexpected_keys (net state_dict : Net) : gset string :=
  dom state_dict ∖ dom net.

Definition size_mismatch (net state_dict : Net) : gmap string unit :=
  merge (λ param input,
           match param, input with
           | Some p, Some i =>
               if decide (shape i = shape p) then None else Some tt
           | _, _ => None
           end) net state_dict.

Definition copy_ (param input : option Tensor) : option Tensor :=
  match param, input with
  | Some _, Some i => Some i
  | Some p, None => Some p
  | None, _ => None
  end.

Definition load_state_dict (net state_dict : Net) (strict : bool)
  : result Net :=
  if strict && negb (bool_decide (missing_keys net state_dict = ∅)
                     && bool_decide (unexpected_keys net state_dict = ∅))
  then Raise RuntimeError
  else if negb (bool_decide (size_mismatch net state_dict = ∅))
  then Raise RuntimeError
  else Ok (merge copy_ net state_dict).

(** The tensors that [state_dict] gives for names of the network have
    the shapes of the network's tensors. *)
Definition shapes_agree (net state_dict : Net) : Prop :=
  forall name p i,
    net !! name = Some p -> state_dict !! name = Some i ->
    shape i = shape p.

(** *** The model object *)

(** [_Model = namedtuple('_Model', ['net', 'step'])]. *)
Record _Model : Type := { net : Net; step : Z }.

(** A [PyDenseNetBc] object on which [_train_params] and [_model] have been
    set, as [train] and [load_parameters] do before anything else reads
    them. *)
Record t : Type := {
  _knobs : Knobs;
  _train_params : TrainParams;
  _model : _Model
}.

(** [_build_model]. *)
Definition _build_model (knobs : Knobs) (train_params : TrainParams)
  : _Model :=
  {| net := DenseNet (K train_params) (drop_rate knobs); step := 0 |}.

(** [load_parameters]: [train_params] and [net_state_dict] are the
    deserialised contents of [train_params.json] and [model.pt]. *)
Definition load_parameters (knobs : Knobs) (train_params : TrainParams)
    (net_state_dict : Net) : result t :=
  let model := _build_model knobs train_params in
  match load_state_dict (net model) net_state_dict true with
  | Raise e => Raise e
  | Ok net' =>
      Ok {| _knobs := knobs; _train_params := train_params;
            _model := {| net := net'; step := step model |} |}
  end.

(** The inner function [merge_params] of [get_shared_parameters]: a loop
    over [state_dict.items()] that stores into [params].  The keys stored
    are pairwise different, so the order of the iteration is immaterial. *)
Definition merge_params (params : gmap string NdArray) (prefix : string)
    (state_dict : Net) : gmap string NdArray :=
  map_fold (λ name value params,
              <[prefix +:+ ":" +:+ name := numpy value]> params)
           params state_dict.

(** [get_shared_parameters]; Python's [None] is [None]. *)
Definition get_shared_parameters (self : t)
  : option (gmap string NdArray) :=
  let net := net (_model self) in
  let step := step (_model self) in
  if negb (if_share_params (_knobs self)) then None
  else
    let params := merge_params ∅ "net" net in
    Some (<["step" := asarray step]> params).

(** The inner function [extract_params] of [_load_shared_parameters]: a
    dict comprehension over [params.items()].  Two keys with the prefix
    give different names, so the order of the iteration is immaterial. *)
Definition extract_params (params : gmap string NdArray) (prefix : string)
  : Net :=
  map_fold (λ name value acc,
              if startswith name (prefix +:+ ":")
              then <[join ":" (tail (split ":"%char name))
                     := from_numpy value]> acc
              else acc)
           ∅ params.

(** [_load_shared_parameters]. *)
Definition _load_shared_parameters (self : t) (params : gmap string NdArray)
  : result t :=
  let net := net (_model self) in
  if (size params =? 0)%nat then Ok self
  else
    let net_state_dict := extract_params params "net" in
    match load_state_dict net net_state_dict false with
    | Raise e => Raise e
    | Ok net' =>
        match params !! "step" with
        | None => Raise KeyError
        | Some a =>
            match int_of a with
            | None => Raise TypeError
            | Some step' =>
                Ok {| _knobs := _knobs self;
                      _train_params := _train_params self;
                      _model := {| net := net'; step := step' |} |}
            end
        end
    end.

(** *** The training loop *)

(** [_get_trial_epochs]. *)
Definition _get_trial_epochs (self : t) : Z :=
  max_trial_epochs (_knobs self).

(** The variables that the epoch loop of [_train_model] carries from one
    iteration to the next. *)
Record loop_vars : Type := {
  lv_net : Net;
  lv_optim : Optim;
  lv_step : Z;
  lv_early_stop_condition : EarlyStopCondition.t
}.

(** The body of [for (batch_images, batch_classes) in train_dataloader]. *)
Definition train_body
    (carried : Net * Optim * Z * RunningAverage.t * RunningAverage.t)
    (batch : Batch)
  : Net * Optim * Z * RunningAverage.t * RunningAverage.t :=
  let '(net, optim, step, train_loss, train_acc) := carried in
  let '(net', optim', loss, acc) := train_batch net optim batch in
  (net', optim', (step + 1)%Z,
   RunningAverage.add train_loss loss, RunningAverage.add train_acc acc).

(** The body of [for (batch_images, batch_classes) in train_val_dataloader]. *)
Definition train_val_body
    (carried : Net * RunningAverage.t * RunningAverage.t) (batch : Batch)
  : Net * RunningAverage.t * RunningAverage.t :=
  let '(net, train_val_loss, train_val_acc) := carried in
  let '(net', loss, acc) := train_val_batch net batch in
  (net', RunningAverage.add train_val_loss loss,
   RunningAverage.add train_val_acc acc).

(** The body of [for epoch in range(trial_epochs)]: the variables after
    the iteration, what it reported, and whether it left the loop through
    [break]. *)
Definition epoch_body (train_dataset train_val_dataset : list Sample)
    (batch_size : Z) (vars : loop_vars) (epoch : Z)
  : loop_vars * list event * bool :=
  let optim := scheduler_step (lv_optim vars) in
  let '(net, optim, step, train_loss, train_acc) :=
    fold_left train_body (DataLoader train_dataset batch_size true epoch)
      (lv_net vars, optim, lv_step vars,
       RunningAverage.__init__, RunningAverage.__init__) in
  let log_train :=
    [RunningEpoch epoch;
     TrainMetrics epoch step (RunningAverage.get train_loss)
                  (RunningAverage.get train_acc)] in
  if (0 <? length train_val_dataset)%nat then
    let '(net, train_val_loss, train_val_acc) :=
      fold_left train_val_body
        (DataLoader train_val_dataset batch_size false epoch)
        (net, RunningAverage.__init__, RunningAverage.__init__) in
    let log_train_val :=
      [TrainValMetrics epoch (RunningAverage.get train_val_loss)
                       (RunningAverage.get train_val_acc)] in
    let '(early_stop_condition, stop) :=
      EarlyStopCondition.check (lv_early_stop_condition vars)
        (pyfloat_of (RunningAverage.get train_val_loss)) in
    let vars' := {| lv_net := net; lv_optim := optim; lv_step := step;
                    lv_early_stop_condition := early_stop_condition |} in
    let log_check :=
      [EarlyStopCheck (RunningAverage.get train_val_loss) stop] in
    if stop then
      (vars',
       log_train ++ log_train_val ++ log_check
         ++ [NotImproved (EarlyStopCondition.patience early_stop_condition);
             Message "Early stopping..."],
       true)
    else (vars', log_train ++ log_train_val ++ log_check, false)
  else
    ({| lv_net := net; lv_optim := optim; lv_step := step;
        lv_early_stop_condition := lv_early_stop_condition vars |},
     log_train, false).

(** The epoch loop: the iterations run in order until one breaks or the
    epochs are exhausted. *)
Fixpoint epoch_loop (train_dataset train_val_dataset : list Sample)
    (batch_size : Z) (vars : loop_vars) (epochs : list Z)
  : loop_vars * list event :=
  match epochs with
  | [] => (vars, [])
  | epoch :: rest =>
      let '(vars', log, broke) :=
        epoch_body train_dataset train_val_dataset batch_size vars epoch in
      if broke then (vars', log)
      else
        let '(vars'', log') :=
          epoch_loop train_dataset train_val_dataset batch_size vars' rest in
        (vars'', log ++ log')
  end.

(** [_train_model]: the object afterwards and everything reported. *)
Definition _train_model (self : t)
    (train_dataset train_val_dataset : list Sample) : t * list event :=
  let trial_epochs := _get_trial_epochs self in
  let batch_size := batch_size (_knobs self) in
  let early_stop_patience := early_stop_patience_epochs (_knobs self) in
  let net := net (_model self) in
  let step := step (_model self) in
  let log_start :=
    [DefinePlot "Losses over Epoch"; DefinePlot "Accuracies over Epoch";
     Message "Training model..."]
    ++ (if cuda_is_available then [Message "Using CUDA..."] else []) in
  let optim := _get_optimizer (_knobs self) net trial_epochs in
  let early_stop_condition :=
    EarlyStopCondition.__init__ early_stop_patience false in
  let '(vars, log) :=
    epoch_loop train_dataset train_val_dataset batch_size
      {| lv_net := net; lv_optim := optim; lv_step := step;
         lv_early_stop_condition := early_stop_condition |}
      (range trial_epochs) in
  ({| _knobs := _knobs self; _train_params := _train_params self;
      _model := {| net := lv_net vars; step := lv_step vars |} |},
   log_start ++ log).

(** The epochs that a log shows as started. *)
Definition epochs_run (log : list event) : list Z :=
  omap (λ ev, match ev with RunningEpoch epoch => Some epoch | _ => None end)
       log.

(** Events of the validation pass and of the early-stop check. *)
Definition is_train_val_event (ev : event) : bool :=
  match ev with
  | TrainValMetrics _ _ _ | EarlyStopCheck _ _ | NotImproved _ => true
  | _ => false
  end.

(** The event of a check that returned true. *)
Definition is_stop (ev : event) : bool :=
  match ev with
  | EarlyStopCheck _ true => true
  | _ => false
  end.

End Framework.

End PyDenseNetBc.

(** ** A small instance of the framework

    Tensors and arrays are flat lists of integers; the shape of a tensor is
    its length, and the network has a two-entry weight and a one-entry
    bias.  Used to evaluate the class on concrete inputs. *)

Module Toy.

Definition Tensor : Type := list Z.
Definition NdArray : Type := list Z.
Definition shape (x : Tensor) : list nat := [length x].
Definition numpy (x : Tensor) : NdArray := x.
Definition from_numpy (a : NdArray) : Tensor := a.
Definition asarray (z : Z) : NdArray := [z].
Definition int_of (a : NdArray) : option Z :=
  match a with
  | [z] => Some z
  | _ => None
  end.

Definition DenseNet (num_classes : Z) (drop_rate : Q) : gmap string Tensor :=
  <["classifier.weight" := [0; 0]%Z]> (<["classifier.bias" := [0]%Z]> ∅).

Definition knobs (share : bool) (epochs patience : Z) : PyDenseNetBc.Knobs :=
  {| PyDenseNetBc.max_trial_epochs := epochs;
     PyDenseNetBc.lr := 1 # 10;
     PyDenseNetBc.lr_decay := 1 # 10;
     PyDenseNetBc.opt_momentum := 9 # 10;
     PyDenseNetBc.opt_weight_decay := 1 # 1000;
     PyDenseNetBc.batch_size := 32;
     PyDenseNetBc.drop_rate := 0;
     PyDenseNetBc.max_image_size := 32;
     PyDenseNetBc.max_train_val_samples := 1024;
     PyDenseNetBc.early_stop_patience_epochs := patience;
     PyDenseNetBc.if_share_params := share |}.

Definition train_params : PyDenseNetBc.TrainParams :=
  {| PyDenseNetBc.norm_mean := [1 # 2; 1 # 2; 1 # 2];
     PyDenseNetBc.norm_std := [1 # 4; 1 # 4; 1 # 4];
     PyDenseNetBc.image_size := 32;
     PyDenseNetBc.N := 100;
     PyDenseNetBc.K := 10 |}.

(** A model object: the given knobs, weights and step. *)
Definition model (knobs : PyDenseNetBc.Knobs) (weight bias : Tensor)
    (step : Z) : PyDenseNetBc.t Tensor :=
  {| PyDenseNetBc._knobs := knobs;
     PyDenseNetBc._train_params := train_params;
     PyDenseNetBc._model :=
       {| PyDenseNetBc.net :=
            <["classifier.weight" := weight]>
              (<["classifier.bias" := bias]> ∅);
          PyDenseNetBc.step := step |} |}.

(** A training run: a sample is its own loss, a batch is one sample, the
    accuracy of every batch is 1/2, and training leaves the network as it
    is. *)
Definition Optim : Type := unit.
Definition Sample : Type := float.
Definition Batch : Type := float.
Definition DataLoader (dataset : list Sample) (batch_size : Z)
    (shuffle : bool) (epoch : Z) : list Batch :=
  if shuffle then rev dataset else dataset.
Definition train_batch (net : gmap string Tensor) (optim : Optim)
    (batch : Batch) : gmap string Tensor * Optim * float * float :=
  (net, optim, batch, 0.5%float).
Definition train_val_batch (net : gmap string Tensor) (batch : Batch)
  : gmap string Tensor * float * float :=
  (net, batch, 0.5%float).

Definition _train_model (self : PyDenseNetBc.t Tensor)
    (train_dataset train_val_dataset : list Sample)
  : PyDenseNetBc.t Tensor * list PyDenseNetBc.event :=
  PyDenseNetBc._train_model (λ _ _ _, tt) (λ o, o)
    DataLoader train_batch train_val_batch false
    self train_dataset train_val_dataset.

End Toy.

(** ** PyDenseNetBc: trial configuration, datasets, [train] and files *)

(** Exceptions of the methods below; the ones of the serializer are
    passed on. *)
Inductive error : Type :=
| ValueError
| AssertionError
| AttributeError
| FileNotFoundError
| DecodeError
| OverflowError
| Reraise (e : exn).

Inductive outcome (A : Type) : Type :=
| Returns (a : A)
| Raises (e : error).
Arguments Raises {A} e.

(** [l[n:]] and [l[:n]] for a list and any integer [n]: a negative [n]
    counts from the end, and indices are clamped to the list. *)
Definition slice_index (len : nat) (n : Z) : nat :=
  if (n <? 0)%Z then Z.to_nat (Z.max (Z.of_nat len + n) 0)
  else Z.to_nat (Z.min n (Z.of_nat len)).

Definition slice_from {A : Type} (l : list A) (n : Z) : list A :=
  drop (slice_index (length l) n) l.

Definition slice_to {A : Type} (l : list A) (n : Z) : list A :=
  take (slice_index (length l) n) l.

Module TrialConfig.

(** [rafiki.model.SharedParams], the members used. *)
Inductive SharedParams : Type := NONE | LOCAL_BEST.

(** [TrialConfig(...)] with the keyword arguments that a call passes; an
    argument left out is [None]. *)
Record t : Type := {
  override_knobs : option (gmap string Z);
  shared_params : option SharedParams;
  should_save : option bool
}.

#[global] Instance SharedParams_eq_dec : EqDecision SharedParams.
Proof. solve_decision. Defined.

#[global] Instance t_eq_dec : EqDecision t.
Proof. solve_decision. Defined.

End TrialConfig.

(** [PyDenseNetBc.get_trial_config]. *)
Definition get_trial_config (trial_no total_trials : Z)
    (running_trial_nos : list Z) : TrialConfig.t :=
  let num_final_trials := 10%Z in
  let is_final_trial := (total_trials - trial_no <? num_final_trials)%Z in
  if is_final_trial then
    let override_knobs : gmap string Z :=
      <["max_train_val_samples" := 0%Z]>
        (<["max_trial_epochs" := 300%Z]> ∅) in
    {| TrialConfig.override_knobs := Some override_knobs;
       TrialConfig.shared_params := Some TrialConfig.NONE;
       TrialConfig.should_save := None |}
  else
    {| TrialConfig.override_knobs := None;
       TrialConfig.shared_params := Some TrialConfig.LOCAL_BEST;
       TrialConfig.should_save := Some false |}.

(** The configuration of a final trial: 300 epochs and no train-val
    samples (so no early stopping), no shared parameters, [should_save]
    left at its default. *)
Definition final_config : TrialConfig.t :=
  {| TrialConfig.override_knobs :=
       Some (<["max_trial_epochs" := 300%Z]>
               (<["max_train_val_samples" := 0%Z]> ∅));
     TrialConfig.shared_params := Some TrialConfig.NONE;
     TrialConfig.should_save := None |}.

(** The configuration of every other trial: the knobs as proposed, the
    parameters of the best trial so far, nothing saved. *)
Definition search_config : TrialConfig.t :=
  {| TrialConfig.override_knobs := None;
     TrialConfig.shared_params := Some TrialConfig.LOCAL_BEST;
     TrialConfig.should_save := Some false |}.

(** Is this the configuration of a final trial? *)
Definition is_final_config (config : TrialConfig.t) : bool :=
  bool_decide (config = final_config).

Module PyDenseNetBcTrain.

Import PyDenseNetBc.

(** The pre-processing of an [ImageDataset]: what its [transforms.Compose]
    is built from. *)
Record Transform : Type := {
  crop_size : option Z;
  horizontal_flip : bool;
  normalize_mean : list Q;
  normalize_std : list Q
}.

Section Data.

(** Images and class labels, and the per-channel statistics
    [np.mean(np.array(images) / 255, axis=(0, 1, 2))] and [np.std(...)]. *)
Variables Image Class : Type.
Variable channel_mean : list Image -> list Q.
Variable channel_std : list Image -> list Q.

(** What [utils.dataset.load_dataset_of_image_files] returns: its
    attributes and the pairs that iterating it yields. *)
Record ImageFilesDataset : Type := {
  size : Z;
  image_size : Z;
  classes : Z;
  items : list (Image * Class)
}.

(** [class ImageDataset]. *)
Record ImageDataset : Type := {
  _images : list Image;
  _classes : list Class;
  _transform : Transform
}.

(** [ImageDataset.__init__]. *)
Definition ImageDataset__init__ (images : list Image) (classes : list Class)
    (image_size : Z) (norm_mean norm_std : list Q) (is_train : bool)
  : ImageDataset :=
  {| _images := images;
     _classes := classes;
     _transform :=
       if is_train
       then {| crop_size := Some image_size; horizontal_flip := true;
               normalize_mean := norm_mean; normalize_std := norm_std |}
       else {| crop_size := None; horizontal_flip := false;
               normalize_mean := norm_mean; normalize_std := norm_std |} |}.

(** [ImageDataset.__len__]. *)
Definition __len__ (self : ImageDataset) : nat := length (_images self).

(** The samples of a dataset in index order, each with the pre-processing
    that [__getitem__] applies to it. *)
Definition samples (self : ImageDataset)
  : list (Image * Class * Transform) :=
  map (λ sample, (sample, _transform self))
      (zip (_images self) (_classes self)).

(** The unpacking of the pairs into [(images, classes)] through [zip]: it
    fails when there is no pair. *)
Definition unzip_pairs (pairs : list (Image * Class))
  : outcome (list Image * list Class) :=
  match pairs with
  | [] => Raises ValueError
  | _ :: _ => Returns (map fst pairs, map snd pairs)
  end.

(** [_load_train_dataset]; [dataset] is what the dataset utility loaded
    from [dataset_uri]. *)
Definition _load_train_dataset (knobs : Knobs) (dataset : ImageFilesDataset)
  : outcome (ImageDataset * ImageDataset * TrainParams) :=
  let max_train_val_samples := max_train_val_samples knobs in
  let dataset_classes := classes dataset in
  match unzip_pairs (items dataset) with
  | Raises e => Raises e
  | Returns (images, classes) =>
      let train_val_samples :=
        Z.min (size dataset / 5) max_train_val_samples in
      let train_images := slice_from images train_val_samples in
      let train_classes := slice_from classes train_val_samples in
      let train_val_images := slice_to images train_val_samples in
      let train_val_classes := slice_to classes train_val_samples in
      let norm_mean := channel_mean train_images in
      let norm_std := channel_std train_images in
      let train_dataset :=
        ImageDataset__init__ train_images train_classes (image_size dataset)
                             norm_mean norm_std true in
      let train_val_dataset :=
        ImageDataset__init__ train_val_images train_val_classes
                             (image_size dataset) norm_mean norm_std false in
      let train_params :=
        {| norm_mean := norm_mean;
           norm_std := norm_std;
           PyDenseNetBc.image_size := image_size dataset;
           N := size dataset;
           K := dataset_classes |} in
      Returns (train_dataset, train_val_dataset, train_params)
  end.

(** *** [train] *)

Variables Tensor NdArray Optim Batch : Type.
Variable shape : Tensor -> list nat.
Variable from_numpy : NdArray -> Tensor.
Variable int_of : NdArray -> option Z.
Variable DenseNet : Z -> Q -> gmap string Tensor.
Variable _get_optimizer : Knobs -> gmap string Tensor -> Z -> Optim.
Variable scheduler_step : Optim -> Optim.
Variable DataLoader :
  list (Image * Class * Transform) -> Z -> bool -> Z -> list Batch.
Variable train_batch :
  gmap string Tensor -> Optim -> Batch
  -> gmap string Tensor * Optim * float * float.
Variable train_val_batch :
  gmap string Tensor -> Batch -> gmap string Tensor * float * float.
Variable cuda_is_available : bool.

(** [train(self, dataset_uri, shared_params)] on an object with the given
    knobs: the object afterwards and what the training loop reported. *)
Definition train (knobs : Knobs) (dataset : ImageFilesDataset)
    (shared_params : gmap string NdArray)
  : outcome (PyDenseNetBc.t Tensor * list event) :=
  match _load_train_dataset knobs dataset with
  | Raises e => Raises e
  | Returns (train_dataset, train_val_dataset, train_params) =>
      let self :=
        {| _knobs := knobs; _train_params := train_params;
           _model := _build_model DenseNet knobs train_params |} in
      match _load_shared_parameters shape from_numpy int_of self
                                    shared_params with
      | Raise e => Raises (Reraise e)
      | Ok self =>
          Returns (_train_model _get_optimizer scheduler_step DataLoader
                                train_batch train_val_batch
                                cuda_is_available self
                                (samples train_dataset)
                                (samples train_val_dataset))
      end
  end.

End Data.

End PyDenseNetBcTrain.

(** ** PyDenseNetBc: parameters on disk *)

(** The last character of a string. *)
Fixpoint last_char (s : string) : option Ascii.ascii :=
  match s with
  | EmptyString => None
  | String c EmptyString => Some c
  | String _ s' => last_char s'
  end.

(** [os.path.join(a, b)] on POSIX for a relative [b]. *)
Definition path_join (a b : string) : string :=
  match a with
  | EmptyString => b
  | _ =>
      match last_char a with
      | Some "/"%char => a +:+ b
      | _ => a +:+ "/" +:+ b
      end
  end.

Module PyDenseNetBcFiles.

Import PyDenseNetBc.

Section Files.

Variable Tensor : Type.
Variable shape : Tensor -> list nat.
Variable DenseNet : Z -> Q -> gmap string Tensor.

(** The content of a file, and the four operations on it:
    [torch.save(state_dict, path)] and [torch.load(path)], and the writing
    of [json.dumps(train_params)] and the [json.loads] of what is read.
    The two readers fail on a content they cannot decode. *)
Variable Content : Type.
Variable torch_save : gmap string Tensor -> Content.
Variable torch_load : Content -> option (gmap string Tensor).
Variable write_json : TrainParams -> Content.
Variable read_json : Content -> option TrainParams.

(** [save_parameters]: the files afterwards.  [params_dir] is taken to
    exist. *)
Definition save_parameters (self : t Tensor) (files : gmap string Content)
    (params_dir : string) : gmap string Content :=
  let model_file_path := path_join params_dir "model.pt" in
  let files := <[model_file_path := torch_save (net (_model self))]> files in
  let train_params_file_path := path_join params_dir "train_params.json" in
  <[train_params_file_path := write_json (_train_params self)]> files.

(** [load_parameters] on an object with the given knobs. *)
Definition load_parameters (knobs : Knobs) (files : gmap string Content)
    (params_dir : string) : outcome (t Tensor) :=
  let train_params_file_path := path_join params_dir "train_params.json" in
  match files !! train_params_file_path with
  | None => Raises FileNotFoundError
  | Some content =>
      match read_json content with
      | None => Raises DecodeError
      | Some train_params =>
          let model_file_path := path_join params_dir "model.pt" in
          match files !! model_file_path with
          | None => Raises FileNotFoundError
          | Some content =>
              match torch_load content with
              | None => Raises DecodeError
              | Some net_state_dict =>
                  match PyDenseNetBc.load_parameters
                          shape DenseNet knobs train_params
                          net_state_dict with
                  | Raise e => Raises (Reraise e)
                  | Ok self => Returns self
                  end
              end
          end
      end
  end.

End Files.

End PyDenseNetBcFiles.

(** ** class TfVgg16: [dump_parameters] and [load_parameters] *)

Module TfVgg16.

(** A value of the parameter dict: a string or an integer. *)
Inductive value : Type :=
| Str (s : string)
| Int (z : Z).

Section Keras.

(** A compiled Keras model and the bytes of a file.  [save_h5] is
    [model.save(path)] followed by the reading of the file, [load_h5] the
    writing of the bytes followed by [keras.models.load_model(path)];
    [b64encode] is [base64.b64encode(b).decode('utf-8')] and [b64decode] is
    [base64.b64decode(s.encode('utf-8'))]. *)
Variables KerasModel Bytes : Type.
Variable save_h5 : KerasModel -> Bytes.
Variable load_h5 : Bytes -> option KerasModel.
Variable b64encode : Bytes -> string.
Variable b64decode : string -> option Bytes.
(** The normalization statistics that [utils.dataset.normalize_images]
    returns and takes, and their JSON text. *)
Variable Stats : Type.
Variable json_dumps : Stats -> string.
Variable json_loads : string -> option Stats.

(** The attributes that [train] or [load_parameters] set; an attribute not
    yet set is [None]. *)
Record t : Type := {
  _model : option KerasModel;
  _image_size : option value;
  _normalize_mean : option Stats;
  _normalize_std : option Stats
}.

(** [dump_parameters]. *)
Definition dump_parameters (self : t) : outcome (gmap string value) :=
  match _model self with
  | None => Raises AttributeError
  | Some model =>
      let h5_model_bytes := save_h5 model in
      let params : gmap string value :=
        <["h5_model_base64" := Str (b64encode h5_model_bytes)]> ∅ in
      match _image_size self with
      | None => Raises AttributeError
      | Some image_size =>
          let params := <["image_size" := image_size]> params in
          match _normalize_mean self with
          | None => Raises AttributeError
          | Some normalize_mean =>
              let params :=
                <["normalize_mean" := Str (json_dumps normalize_mean)]>
                  params in
              match _normalize_std self with
              | None => Raises AttributeError
              | Some normalize_std =>
                  Returns (<["normalize_std"
                             := Str (json_dumps normalize_std)]> params)
              end
          end
      end
  end.

(** [json.loads(params[key])]. *)
Definition loads_entry (params : gmap string value) (key : string)
  : outcome Stats :=
  match params !! key with
  | None => Raises (Reraise KeyError)
  | Some (Int _) => Raises (Reraise TypeError)
  | Some (Str s) =>
      match json_loads s with
      | None => Raises DecodeError
      | Some l => Returns l
      end
  end.

(** [load_parameters]: the object after the call, and the exception if one
    was raised.  The attributes are assigned one after the other, so an
    exception leaves the earlier assignments in place. *)
Definition load_parameters (self : t) (params : gmap string value)
  : t * option error :=
  match params !! "h5_model_base64" with
  | None => (self, Some (Reraise KeyError))
  | Some (Int _) => (self, Some AttributeError)
  | Some (Str h5_model_base64) =>
      match b64decode h5_model_base64 with
      | None => (self, Some DecodeError)
      | Some h5_model_bytes =>
          match load_h5 h5_model_bytes with
          | None => (self, Some DecodeError)
          | Some model =>
              let self :=
                {| _model := Some model;
                   _image_size := _image_size self;
                   _normalize_mean := _normalize_mean self;
                   _normalize_std := _normalize_std self |} in
              match params !! "image_size" with
              | None => (self, Some (Reraise KeyError))
              | Some image_size =>
                  let self :=
                    {| _model := _model self;
                       _image_size := Some image_size;
                       _normalize_mean := _normalize_mean self;
                       _normalize_std := _normalize_std self |} in
                  match loads_entry params "normalize_mean" with
                  | Raises e => (self, Some e)
                  | Returns normalize_mean =>
                      let self :=
                        {| _model := _model self;
                           _image_size := _image_size self;
                           _normalize_mean := Some normalize_mean;
                           _normalize_std := _normalize_std self |} in
                      match loads_entry params "normalize_std" with
                      | Raises e => (self, Some e)
                      | Returns normalize_std =>
                          ({| _model := _model self;
                              _image_size := _image_size self;
                              _normalize_mean := _normalize_mean self;
                              _normalize_std := Some normalize_std |},
                           None)
                      end
                  end
              end
          end
      end
  end.

End Keras.

End TfVgg16.

(** ** The DenseNet-BC network: modules and shapes *)

(** [n * x] for an [int] and a [float]: the integer is converted to a
    float first, which raises for an integer beyond the range of binary64;
    the product is rounded. *)
Definition int_mul_float (n : Z) (x : float) : outcome float :=
  if is_infinity (float_of_int n) then Raises OverflowError
  else Returns (float_of_int n * x)%float.

(** [int(x)] of a float: truncation toward zero; NaN and the infinities
    raise. *)
Definition int_of_float (x : float) : outcome Z :=
  match Prim2SF x with
  | S754_nan => Raises ValueError
  | S754_infinity _ => Raises OverflowError
  | S754_zero _ => Returns 0%Z
  | S754_finite s m e =>
      let magnitude := Z.shiftl (Z.pos m) e in
      Returns (if s then - magnitude else magnitude)%Z
  end.

Module DenseNetBc.

(** The layers of [torch.nn] that the network is built from, with the
    arguments of their constructors. *)
Inductive Layer : Type :=
| Conv2d (in_channels out_channels kernel_size stride padding : Z)
| BatchNorm2d (num_features : Z)
| ReLU
| MaxPool2d (kernel_size stride padding : Z)
| AvgPool2d (kernel_size stride : Z).

(** [class _DenseLayer]: the six sub-modules that [__init__] adds, and the
    two attributes. *)
Record _DenseLayer : Type := {
  norm1 : Layer;
  relu1 : Layer;
  conv1 : Layer;
  norm2 : Layer;
  relu2 : Layer;
  conv2 : Layer;
  drop_rate : Q;
  efficient : bool
}.

(** [_DenseLayer.__init__]. *)
Definition _DenseLayer__init__ (num_input_features growth_rate bn_size : Z)
    (drop_rate : Q) (efficient : bool) : _DenseLayer :=
  {| norm1 := BatchNorm2d num_input_features;
     relu1 := ReLU;
     conv1 := Conv2d num_input_features (bn_size * growth_rate) 1 1 0;
     norm2 := BatchNorm2d (bn_size * growth_rate);
     relu2 := ReLU;
     conv2 := Conv2d (bn_size * growth_rate) growth_rate 3 1 1;
     drop_rate := drop_rate;
     efficient := efficient |}.

(** [_Transition.__init__]: the named children of the [nn.Sequential]. *)
Definition _Transition (num_input_features num_output_features : Z)
  : list (string * Layer) :=
  [("norm", BatchNorm2d num_input_features);
   ("relu", ReLU);
   ("conv", Conv2d num_input_features num_output_features 1 1 0);
   ("pool", AvgPool2d 2 2)].

(** [_DenseBlock.__init__]: the named children. *)
Definition _DenseBlock (num_layers num_input_features bn_size growth_rate : Z)
    (drop_rate : Q) (efficient : bool) : list (string * _DenseLayer) :=
  map (λ i,
         ("denselayer" +:+ pretty (i + 1)%Z,
          _DenseLayer__init__ (num_input_features + i * growth_rate)
                              growth_rate bn_size drop_rate efficient))
      (range num_layers).

(** A child of [DenseNet.features]. *)
Inductive Feature : Type :=
| FLayer (layer : Layer)
| FBlock (block : list (string * _DenseLayer))
| FTransition (transition : list (string * Layer)).

(** [class DenseNet]: the pooling size, the children of [features] in the
    order in which they were added, and the [in_features] and
    [out_features] of the linear classifier. *)
Record t : Type := {
  avgpool_size : Z;
  features : list (string * Feature);
  classifier : Z * Z
}.

(** The loop [for i, num_layers in enumerate(block_config)] of
    [DenseNet.__init__], from index [i] on: the children added to
    [features] and the final [num_features].  [len] is
    [len(block_config)]; [compression] is a float, as its default 0.5. *)
Fixpoint add_blocks (growth_rate : Z) (compression : float) (bn_size : Z)
    (drop_rate : Q) (efficient : bool) (len : Z) (i : Z)
    (block_config : list Z) (features : list (string * Feature))
    (num_features : Z) : outcome (list (string * Feature) * Z) :=
  match block_config with
  | [] => Returns (features, num_features)
  | num_layers :: rest =>
      let block :=
        _DenseBlock num_layers num_features bn_size growth_rate drop_rate
                    efficient in
      let features :=
        features ++ [("denseblock" +:+ pretty (i + 1)%Z, FBlock block)] in
      let num_features := (num_features + num_layers * growth_rate)%Z in
      if negb (i =? len - 1)%Z then
        match int_mul_float num_features compression with
        | Raises e => Raises e
        | Returns product =>
            match int_of_float product with
            | Raises e => Raises e
            | Returns num_output_features =>
                let trans := _Transition num_features num_output_features in
                let features :=
                  features
                  ++ [("transition" +:+ pretty (i + 1)%Z, FTransition trans)]
                in
                add_blocks growth_rate compression bn_size drop_rate
                           efficient len (i + 1) rest features
                           num_output_features
            end
        end
      else
        add_blocks growth_rate compression bn_size drop_rate efficient len
                   (i + 1) rest features num_features
  end.

(** [DenseNet.__init__].  The initialization of the parameter values at its
    end does not change any module and is left out. *)
Definition __init__ (growth_rate : Z) (block_config : list Z)
    (compression : float) (num_init_features bn_size : Z) (drop_rate : Q)
    (num_classes : Z) (small_inputs efficient : bool) : outcome t :=
  if negb ((0 <? compression)%float && (compression <=? 1)%float)
  then Raises AssertionError
  else
    let avgpool_size := if small_inputs then 8%Z else 7%Z in
    let features :=
      if small_inputs
      then [("conv0", FLayer (Conv2d 3 num_init_features 3 1 1))]
      else [("conv0", FLayer (Conv2d 3 num_init_features 7 2 3));
            ("norm0", FLayer (BatchNorm2d num_init_features));
            ("relu0", FLayer ReLU);
            ("pool0", FLayer (MaxPool2d 3 2 1))] in
    match add_blocks growth_rate compression bn_size drop_rate efficient
                     (Z.of_nat (length block_config)) 0 block_config features
                     num_init_features with
    | Raises e => Raises e
    | Returns (features, num_features) =>
        let features :=
          features ++ [("norm_final", FLayer (BatchNorm2d num_features))] in
        Returns {| avgpool_size := avgpool_size;
                   features := features;
                   classifier := (num_features, num_classes) |}
    end.

(** *** Shapes

    A batch of feature maps is followed through [forward] by its shape
    without the batch dimension: channels, height and width.  A layer given
    a shape it does not accept raises; here it returns [None].  The batch
    is not empty, and in training mode it gives batch normalization more
    than one value per channel. *)
Definition Shape : Type := Z * Z * Z.

(** The output size of a convolution or pooling window along one axis. *)
Definition window_out (size kernel_size stride padding : Z) : option Z :=
  if (kernel_size <=? size + 2 * padding)%Z
  then Some ((size + 2 * padding - kernel_size) / stride + 1)%Z
  else None.

(** The shape that a layer returns: a convolution and a batch norm check
    the number of channels, a window must fit the padded input. *)
Definition Layer_forward (layer : Layer) (x : Shape) : option Shape :=
  let '(c, h, w) := x in
  match layer with
  | Conv2d in_channels out_channels kernel_size stride padding =>
      if (c =? in_channels)%Z then
        match window_out h kernel_size stride padding,
              window_out w kernel_size stride padding with
        | Some h', Some w' => Some (out_channels, h', w')
        | _, _ => None
        end
      else None
  | BatchNorm2d num_features =>
      if (c =? num_features)%Z then Some x else None
  | ReLU => Some x
  | MaxPool2d kernel_size stride padding =>
      match window_out h kernel_size stride padding,
            window_out w kernel_size stride padding with
      | Some h', Some w' => Some (c, h', w')
      | _, _ => None
      end
  | AvgPool2d kernel_size stride =>
      match window_out h kernel_size stride 0,
            window_out w kernel_size stride 0 with
      | Some h', Some w' => Some (c, h', w')
      | _, _ => None
      end
  end.

(** [nn.Sequential.forward]: the children in order. *)
Fixpoint Sequential_forward {A : Type} (forward : A -> Shape -> option Shape)
    (children : list (string * A)) (x : Shape) : option Shape :=
  match children with
  | [] => Some x
  | (_, child) :: rest =>
      match forward child x with
      | Some y => Sequential_forward forward rest y
      | None => None
      end
  end.

(** [torch.cat(inputs, 1)]: the channels add up, heights and widths must
    agree, and there must be an input. *)
Fixpoint cat (inputs : list Shape) : option Shape :=
  match inputs with
  | [] => None
  | [x] => Some x
  | (c, h, w) :: rest =>
      match cat rest with
      | Some (c', h', w') =>
          if (h =? h')%Z && (w =? w')%Z then Some (c + c', h, w)%Z else None
      | None => None
      end
  end.

(** [_DenseLayer.forward] on the list [prev_features]; checkpointing and
    dropout do not change shapes. *)
Definition _DenseLayer_forward (self : _DenseLayer)
    (prev_features : list Shape) : option Shape :=
  match cat prev_features with
  | None => None
  | Some concated_features =>
      match Layer_forward (norm1 self) concated_features with
      | None => None
      | Some y =>
          match Layer_forward (relu1 self) y with
          | None => None
          | Some y =>
              match Layer_forward (conv1 self) y with
              | None => None
              | Some bottleneck_output =>
                  match Layer_forward (norm2 self) bottleneck_output with
                  | None => None
                  | Some y =>
                      match Layer_forward (relu2 self) y with
                      | None => None
                      | Some y => Layer_forward (conv2 self) y
                      end
                  end
              end
          end
      end
  end.

(** The loop of [_DenseBlock.forward] over the children: the list
    [features] afterwards. *)
Fixpoint _DenseBlock_loop (children : list (string * _DenseLayer))
    (features : list Shape) : option (list Shape) :=
  match children with
  | [] => Some features
  | (_, layer) :: rest =>
      match _DenseLayer_forward layer features with
      | None => None
      | Some new_features =>
          _DenseBlock_loop rest (features ++ [new_features])
      end
  end.

(** [_DenseBlock.forward(init_features)]. *)
Definition _DenseBlock_forward (children : list (string * _DenseLayer))
    (init_features : Shape) : option Shape :=
  match _DenseBlock_loop children [init_features] with
  | None => None
  | Some features => cat features
  end.

Definition Feature_forward (feature : Feature) (x : Shape) : option Shape :=
  match feature with
  | FLayer layer => Layer_forward layer x
  | FBlock block => _DenseBlock_forward block x
  | FTransition transition => Sequential_forward Layer_forward transition x
  end.

(** [DenseNet.forward(x)]: the number of outputs per image.
    [F.avg_pool2d] has the stride of its kernel, [view] flattens, and the
    linear classifier checks the number of its inputs. *)
Definition forward (self : t) (x : Shape) : option Z :=
  match Sequential_forward Feature_forward (features self) x with
  | None => None
  | Some features =>
      match Layer_forward (AvgPool2d (avgpool_size self) (avgpool_size self))
                          features with
      | None => None
      | Some (c, h, w) =>
          if (c * h * w =? fst (classifier self))%Z
          then Some (snd (classifier self))
          else None
      end
  end.

(** *** Channel counts

    [torch.nn]'s constructors reject a negative number of channels, and
    the initialization loop at the end of [DenseNet.__init__] divides by
    [param.size(0) * param.size(2) * param.size(3)], which is zero for a
    convolution without output channels.  The modules above are those of
    a network in which every number of channels is positive. *)
Definition Layer_positive (layer : Layer) : bool :=
  match layer with
  | Conv2d in_channels out_channels _ _ _ =>
      (0 <? in_channels)%Z && (0 <? out_channels)%Z
  | BatchNorm2d num_features => (0 <? num_features)%Z
  | ReLU | MaxPool2d _ _ _ | AvgPool2d _ _ => true
  end.

Definition _DenseLayer_positive (layer : _DenseLayer) : bool :=
  forallb Layer_positive
          [norm1 layer; relu1 layer; conv1 layer;
           norm2 layer; relu2 layer; conv2 layer].

Definition Feature_positive (feature : Feature) : bool :=
  match feature with
  | FLayer layer => Layer_positive layer
  | FBlock block => forallb (λ child, _DenseLayer_positive (snd child)) block
  | FTransition transition =>
      forallb (λ child, Layer_positive (snd child)) transition
  end.

Definition channels_positive (self : t) : bool :=
  forallb (λ child, Feature_positive (snd child)) (features self)
  && (0 <? fst (classifier self))%Z
  && (0 <? snd (classifier self))%Z.

(** A height or width after [n] transitions, each of which halves it. *)
Definition halvings (n : nat) (size : Z) : Z :=
  Nat.iter n (λ x, x / 2)%Z size.

End DenseNetBc.

Unset Implicit Arguments.
Unset Maximal Implicit Insertion.

(** * Properties *)

(** ** RunningAverage *)

Section RunningAverageFacts.

Import RunningAverage.

Lemma add_all_snoc (vals : list float) (val : float) :
  add_all (vals ++ [val]) = add (add_all vals) val.
Proof. unfold add_all, add_from. now rewrite fold_left_app. Qed.

Lemma count_add_from (self : t) (vals : list float) :
  _count (add_from self vals) = (_count self + Z.of_nat (length vals))%Z.
Proof.
  revert self. induction vals as [|val vals IH]; intros self.
  - cbn. lia.
  - change (add_from self (val :: vals)) with (add_from (add self val) vals).
    rewrite IH. cbn [add _count length]. lia.
Qed.

Lemma count_add_all (vals : list float) :
  _count (add_all vals) = Z.of_nat (length vals).
Proof. unfold add_all. now rewrite count_add_from. Qed.

Lemma Qsum_snoc (vals : list Q) (val : Q) :
  (Qsum (vals ++ [val]) == Qsum vals + val)%Q.
Proof.
  induction vals as [|v vals IH]; cbn [Qsum fold_right app].
  - ring.
  - fold (Qsum (vals ++ [val])). fold (Qsum vals). rewrite IH. ring.
Qed.

Lemma inject_Z_succ_nonzero (n : nat) :
  ~ (inject_Z (Z.of_nat n + 1) == 0)%Q.
Proof.
  unfold Qeq. cbn [inject_Z Qnum Qden]. lia.
Qed.

(** What an exact call gives. *)
Lemma exact_add_true (self : t) (val : float) :
  exact_add self val = true ->
  is_finite (_avg (add self val)) = true
  /\ (value (_avg (add self val))
      == value (_avg self) * inject_Z (_count self)
           / inject_Z (_count self + 1)
         + value val / inject_Z (_count self + 1))%Q.
Proof.
  unfold exact_add. intros H.
  apply andb_prop in H as [H Heq]. apply andb_prop in H as [_ Hfin].
  split; [exact Hfin | now apply Qeq_bool_eq].
Qed.

(** The invariant of the incremental formula, as long as the calls are
    exact: average times count is the sum of the values seen. *)
Lemma avg_times_count (vals : list float) :
  forall (self : t) (seen : list Q),
    _count self = Z.of_nat (length seen) ->
    (value (_avg self) * inject_Z (_count self) == Qsum seen)%Q ->
    exact_run self vals = true ->
    (value (_avg (add_from self vals))
     * inject_Z (_count (add_from self vals))
     == Qsum (seen ++ map value vals))%Q
    /\ (vals <> [] -> is_finite (_avg (add_from self vals)) = true).
Proof.
  induction vals as [|val vals IH]; intros self seen Hcount Hinv Hrun.
  - cbn [add_from fold_left map]. rewrite app_nil_r. now split.
  - cbn [exact_run] in Hrun. apply andb_prop in Hrun as [Hadd Hrun].
    apply exact_add_true in Hadd as [Hfin Hadd].
    change (add_from self (val :: vals)) with (add_from (add self val) vals).
    destruct (IH (add self val) (seen ++ [value val])) as [Hinv' Hfin'].
    + cbn [add _count]. rewrite Hcount, length_app. cbn [length]. lia.
    + rewrite Hadd, Qsum_snoc, <- Hinv. cbn [add _count].
      rewrite Hcount.
      pose proof (inject_Z_succ_nonzero (length seen)) as Hnz.
      field. exact Hnz.
    + exact Hrun.
    + split.
      * rewrite Hinv', <- app_assoc. reflexivity.
      * intros _. destruct vals as [|val' vals]; [exact Hfin|].
        now apply Hfin'.
Qed.




End RunningAverageFacts.

(** ** EarlyStopCondition *)

Section EarlyStopConditionFacts.

Import EarlyStopCondition.

Lemma improved_strictly_improves (self : t) (value : pyfloat) :
  improved self value = strictly_improves self value.
Proof.
  unfold improved, strictly_improves.
  destruct (_if_max self); cbn [negb andb orb]; [reflexivity|].
  now rewrite orb_false_r.
Qed.

(** [check] never changes the configuration of the object. *)
Lemma check_config (self : t) (value : pyfloat) :
  _patience (fst (check self value)) = _patience self
  /\ _if_max (fst (check self value)) = _if_max self.
Proof.
  unfold check.
  destruct (_patience self <? 0)%Z; [easy|].
  destruct (improved self value); cbn [_wait_count _patience];
    match goal with |- context [(?a >=? ?b)%Z] => destruct (a >=? b)%Z end;
    easy.
Qed.

(** C2.  For every condition with patience >= 0 and every call
    [check(value)]: if [value] strictly improves on the best seen in the
    configured direction, the wait counter becomes 0 and the best seen
    becomes [value]; otherwise the wait counter grows by one (and the best
    seen stays); the call returns true exactly when the wait counter after
    this update is >= patience. *)
Theorem check_transition (self : t) (value : pyfloat) :
  (0 <= _patience self)%Z ->
  let self' := fst (check self value) in
  let stop := snd (check self value) in
  (strictly_improves self value = true ->
     _wait_count self' = 0%Z /\ _last_best self' = value)
  /\ (strictly_improves self value = false ->
        _wait_count self' = (_wait_count self + 1)%Z
        /\ _last_best self' = _last_best self)
  /\ (stop = true <-> (_wait_count self' >= _patience self)%Z).
Proof.
  intros Hpat. cbn zeta. unfold check.
  rewrite <- improved_strictly_improves.
  destruct (Z.ltb_spec (_patience self) 0) as [Hneg|_]; [lia|].
  destruct (improved self value); cbn [_wait_count _patience _last_best];
    match goal with
    | |- context [(?a >=? ?b)%Z] => destruct (Z.geb_spec a b)
    end; cbn [fst snd _wait_count _last_best];
    (split; [|split]); try easy; try lia;
    split; intros; try easy; lia.
Qed.

(** An instance: the first call on a fresh condition with patience 2. *)
Lemma check_transition_witness :
  let self := __init__ 2 false in
  (0 <= _patience self)%Z
  /\ _wait_count (fst (check self (Finite 5))) = 0%Z
  /\ _last_best (fst (check self (Finite 5))) = Finite 5
  /\ snd (check self (Finite 5)) = false.
Proof.
  cbn zeta.
  assert (Hpat : (0 <= _patience (__init__ 2 false))%Z) by (cbn; lia).
  destruct (check_transition (__init__ 2 false) (Finite 5) Hpat)
    as (Himp & _ & Hstop).
  destruct (Himp eq_refl) as [Hw Hb].
  split; [exact Hpat|]. split; [exact Hw|]. split; [exact Hb|].
  destruct Hstop as [Hstop _]. rewrite Hw in Hstop.
  destruct (snd (check (__init__ 2 false) (Finite 5))); [|reflexivity].
  specialize (Hstop eq_refl). cbn in Hstop. lia.
Defined.

(** With patience 0 the threshold test [wait_count >= patience] holds
    after every update of a counter that is not negative. *)
Lemma check_patience_zero (self : t) (value : pyfloat) :
  _patience self = 0%Z -> (0 <= _wait_count self)%Z ->
  snd (check self value) = true
  /\ _patience (fst (check self value)) = 0%Z
  /\ (0 <= _wait_count (fst (check self value)))%Z.
Proof.
  intros Hp Hw. unfold check. rewrite Hp. cbn [Z.ltb Z.compare].
  destruct (improved self value); cbn [_wait_count _patience].
  - cbn. repeat split; lia.
  - destruct (Z.geb_spec (_wait_count self + 1) 0) as [_|Hlt]; [|lia].
    cbn. repeat split; lia.
Qed.

Lemma check_all_patience_zero (self : t) (values : list pyfloat) :
  _patience self = 0%Z -> (0 <= _wait_count self)%Z ->
  Forall (λ r, snd r = true) (check_all self values).
Proof.
  revert self. induction values as [|value values IH]; intros self Hp Hw.
  - constructor.
  - destruct (check_patience_zero self value Hp Hw) as (Hs & Hp' & Hw').
    cbn [check_all]. constructor; [exact Hs|]. now apply IH.
Qed.

(** C3, counterexample.  A fresh condition with patience 0 (minimizing) is
    given 5, which improves on the initial best (+inf): the counter is
    reset to 0 and the call already returns true. *)
Lemma patience_zero_triggers_on_improvement :
  let self := __init__ 0 false in
  strictly_improves self (Finite 5) = true
  /\ _wait_count (fst (check self (Finite 5))) = 0%Z
  /\ snd (check self (Finite 5)) = true.
Proof. vm_compute. repeat split. Qed.

(** C3, amended.  A condition constructed with patience 0 returns true on
    every call of [check], from the first call on, whether or not the value
    improves on the best seen. *)
Theorem patience_zero_always_triggers (if_max : bool)
    (values : list pyfloat) :
  length (check_all (__init__ 0 if_max) values) = length values
  /\ Forall (λ r, snd r = true) (check_all (__init__ 0 if_max) values).
Proof.
  split.
  - generalize (__init__ 0 if_max). induction values as [|v values IH];
      intros self; cbn [check_all length]; [reflexivity|]. now rewrite IH.
  - apply check_all_patience_zero; cbn; [reflexivity | lia].
Qed.

(** C4.  For every condition constructed with patience < 0 and every
    sequence of values, every call of [check] returns false (and leaves
    the object as it was). *)
Theorem negative_patience_never_triggers (patience : Z) (if_max : bool)
    (values : list pyfloat) :
  (patience < 0)%Z ->
  length (check_all (__init__ patience if_max) values) = length values
  /\ Forall (λ r, r = (__init__ patience if_max, false))
            (check_all (__init__ patience if_max) values).
Proof.
  intros Hneg.
  assert (Hcheck : forall value,
             check (__init__ patience if_max) value
             = (__init__ patience if_max, false)).
  { intros value. unfold check. cbn [_patience __init__].
    destruct (Z.ltb_spec patience 0); [reflexivity | lia]. }
  induction values as [|value values [IHlen IHall]]; cbn [check_all length].
  - split; [reflexivity | constructor].
  - rewrite Hcheck. cbn [fst]. split; [now rewrite IHlen|].
    constructor; [reflexivity | exact IHall].
Qed.

(** An instance: patience -1, four calls, the last one with NaN. *)
Lemma negative_patience_never_triggers_witness :
  (-1 < 0)%Z
  /\ Forall (λ r, r = (__init__ (-1) false, false))
            (check_all (__init__ (-1) false)
                       [Finite 3; Finite 4; Finite 5; NaN]).
Proof.
  split; [lia|].
  apply (negative_patience_never_triggers (-1) false
           [Finite 3; Finite 4; Finite 5; NaN]).
  lia.
Defined.

(** C5.  Patience 2, minimizing, calls [check(5)], [check(4)], [check(6)],
    [check(7)]: the wait counter is 0, 0, 1, 2 after the respective call,
    the first three calls return false and the fourth returns true. *)
Theorem example_patience_two :
  map (λ r, (_wait_count (fst r), snd r))
      (check_all (__init__ 2 false) [Finite 5; Finite 4; Finite 6; Finite 7])
  = [(0, false); (0, false); (1, false); (2, true)]%Z.
Proof. vm_compute. reflexivity. Qed.

End EarlyStopConditionFacts.

(** ** Strings *)

Section StringFacts.

Lemma split_nonempty (sep : Ascii.ascii) (s : string) : split sep s <> [].
Proof.
  destruct s as [|c s]; cbn [split]; [easy|].
  destruct (Ascii.eqb c sep); [easy|]. now destruct (split sep s).
Qed.

Lemma join_cons_char (sep : string) (c : Ascii.ascii) (w : string)
    (ws : list string) :
  join sep (String c w :: ws) = String c (join sep (w :: ws)).
Proof. cbn [join]. now destruct ws. Qed.

(** Joining what [split] produced gives the string back. *)
Lemma join_split (s : string) : join ":" (split ":" s) = s.
Proof.
  induction s as [|c s IH]; [reflexivity|].
  cbn [split]. destruct (Ascii.eqb_spec c ":") as [->|Hc].
  - pose proof (split_nonempty ":" s) as Hne.
    cbn [join]. destruct (split ":" s) as [|w ws] eqn:E; [easy|].
    now rewrite IH.
  - pose proof (split_nonempty ":" s) as Hne.
    destruct (split ":" s) as [|w ws] eqn:E; [easy|].
    rewrite join_cons_char. now rewrite IH.
Qed.

(** The name that [extract_params] computes from a key ["net:..."]. *)
Lemma strip_net (name : string) :
  join ":" (tail (split ":" ("net:" +:+ name))) = name.
Proof.
  change (split ":" ("net:" +:+ name)) with ("net" :: split ":" name).
  cbn [tail]. apply join_split.
Qed.

Lemma startswith_app (s p : string) :
  startswith s p = true <-> exists r, s = p +:+ r.
Proof.
  unfold startswith. revert s.
  induction p as [|a p IH]; intros s; cbn [String.prefix].
  - split; [intros _; exists s; reflexivity|].
    intros _. now destruct s.
  - destruct s as [|b s]; cbn [String.prefix].
    + split; [easy|]. intros [r Hr].
      change (String a p +:+ r) with (String a (p +:+ r)) in Hr.
      discriminate Hr.
    + destruct (Ascii.ascii_dec a b) as [->|Hab].
      * rewrite IH. split; intros [r Hr]; exists r.
        -- change (String b p +:+ r) with (String b (p +:+ r)).
           now rewrite Hr.
        -- change (String b p +:+ r) with (String b (p +:+ r)) in Hr.
           now injection Hr.
      * split; [easy|]. intros [r Hr].
        change (String a p +:+ r) with (String a (p +:+ r)) in Hr.
        injection Hr; congruence.
Qed.

Lemma startswith_net_false (name : string) :
  startswith name "net:" = false -> forall k, name <> "net:" +:+ k.
Proof.
  intros Hf k ->.
  assert (startswith ("net:" +:+ k) "net:" = true) as Ht
    by (apply startswith_app; now exists k).
  congruence.
Qed.

End StringFacts.

(** ** PyDenseNetBc: the parameter serializer *)

Section SerializerFacts.

Import PyDenseNetBc.

Context {Tensor NdArray : Type}.
Context (shape : Tensor -> list nat).
Context (numpy : Tensor -> NdArray) (from_numpy : NdArray -> Tensor).
Context (asarray : Z -> NdArray) (int_of : NdArray -> option Z).
Context (DenseNet : Z -> Q -> gmap string Tensor).

(** *** [load_state_dict] *)

Lemma size_mismatch_empty (net state_dict : gmap string Tensor) :
  size_mismatch shape net state_dict = ∅
  <-> shapes_agree shape net state_dict.
Proof.
  unfold size_mismatch, shapes_agree. rewrite map_empty. split.
  - intros H name p i Hp Hi. specialize (H name).
    rewrite lookup_merge, Hp, Hi in H. cbn in H.
    destruct (decide (shape i = shape p)); [assumption | discriminate].
  - intros H name. rewrite lookup_merge.
    destruct (net !! name) as [p|] eqn:Hp,
             (state_dict !! name) as [i|] eqn:Hi; cbn; try reflexivity.
    destruct (decide (shape i = shape p)) as [|Hne]; [reflexivity|].
    exfalso. apply Hne. eapply H; eassumption.
Qed.

Lemma lookup_copy (net state_dict : gmap string Tensor) (name : string) :
  merge copy_ net state_dict !! name
  = match net !! name with
    | Some p => Some (default p (state_dict !! name))
    | None => None
    end.
Proof.
  rewrite lookup_merge.
  now destruct (net !! name), (state_dict !! name).
Qed.

(** Without [strict], only a shape mismatch is an error. *)
Lemma load_state_dict_lenient (net state_dict : gmap string Tensor) :
  load_state_dict shape net state_dict false
  = if bool_decide (size_mismatch shape net state_dict = ∅)
    then Ok (merge copy_ net state_dict)
    else Raise RuntimeError.
Proof.
  unfold load_state_dict. cbn [andb].
  now destruct (bool_decide (size_mismatch shape net state_dict = ∅)).
Qed.

(** With [strict], any missing or unexpected name is an error. *)
Lemma load_state_dict_strict_keys (net state_dict : gmap string Tensor) :
  dom state_dict <> dom net ->
  load_state_dict shape net state_dict true = Raise RuntimeError.
Proof.
  intros Hdom. unfold load_state_dict, missing_keys, unexpected_keys.
  destruct (bool_decide_reflect (dom net ∖ dom state_dict = ∅)) as [Hm|Hm];
    [|reflexivity].
  destruct (bool_decide_reflect (dom state_dict ∖ dom net = ∅)) as [Hu|Hu];
    [|reflexivity].
  exfalso. apply Hdom. apply set_eq. intros name. split; intros Hin.
  - destruct (decide (name ∈ dom net)) as [|Hn]; [assumption|].
    assert (name ∈ dom state_dict ∖ dom net) as Hx by set_solver.
    rewrite Hu in Hx. set_solver.
  - destruct (decide (name ∈ dom state_dict)) as [|Hn]; [assumption|].
    assert (name ∈ dom net ∖ dom state_dict) as Hx by set_solver.
    rewrite Hm in Hx. set_solver.
Qed.

(** With [strict], a state dict with exactly the names and shapes of the
    network replaces every tensor. *)
Lemma load_state_dict_strict_ok (net state_dict : gmap string Tensor) :
  dom state_dict = dom net -> shapes_agree shape net state_dict ->
  load_state_dict shape net state_dict true = Ok state_dict.
Proof.
  intros Hdom Hshape. unfold load_state_dict, missing_keys, unexpected_keys.
  rewrite Hdom, difference_diag_L.
  rewrite !bool_decide_eq_true_2 by reflexivity.
  cbn [andb negb].
  rewrite bool_decide_eq_true_2 by now apply size_mismatch_empty.
  cbn [negb]. f_equal. apply map_eq. intros name. rewrite lookup_copy.
  destruct (net !! name) as [p|] eqn:Hp.
  - assert (is_Some (state_dict !! name)) as [i Hi].
    { apply elem_of_dom. rewrite Hdom. apply elem_of_dom. now exists p. }
    now rewrite Hi.
  - symmetry. apply not_elem_of_dom. rewrite Hdom.
    now apply not_elem_of_dom.
Qed.

(** *** Export and import of shared parameters *)

(** [extract_params(params, 'net')] holds, under [name], the tensor of the
    entry ['net:' + name] of [params], and nothing else. *)
Lemma lookup_extract_params (params : gmap string NdArray) (name : string) :
  extract_params from_numpy params "net" !! name
  = from_numpy <$> params !! ("net:" +:+ name).
Proof.
  unfold extract_params. revert name.
  apply (map_fold_weak_ind
           (λ acc m, forall name : string,
              acc !! name = from_numpy <$> m !! ("net:" +:+ name))).
  - intros name. now rewrite !lookup_empty.
  - intros key value m acc Hfresh IH name.
    change ("net" +:+ ":") with "net:".
    destruct (startswith key "net:") eqn:Hstart.
    + apply startswith_app in Hstart as [name' ->].
      rewrite strip_net.
      destruct (decide (name' = name)) as [->|Hne].
      * now rewrite !lookup_insert_eq.
      * rewrite !lookup_insert_ne; [apply IH | | assumption].
        intros Heq. apply Hne. now apply (inj (String.app "net:")).
    + rewrite lookup_insert_ne; [apply IH|].
      now apply startswith_net_false.
Qed.

(** [merge_params('net', state_dict)], started from the empty dict, holds
    under ['net:' + name] the array of the entry [name], and nothing
    else. *)
Lemma lookup_merge_params (state_dict : gmap string Tensor) :
  (forall name,
      merge_params numpy ∅ "net" state_dict !! ("net:" +:+ name)
      = numpy <$> state_dict !! name)
  /\ (forall key,
         (forall name, key <> "net:" +:+ name) ->
         merge_params numpy ∅ "net" state_dict !! key = None).
Proof.
  unfold merge_params.
  apply (map_fold_weak_ind
           (λ acc m,
              (forall name : string,
                  acc !! ("net:" +:+ name) = numpy <$> m !! name)
              /\ (forall key : string,
                     (forall name, key <> "net:" +:+ name) ->
                     acc !! key = None))).
  - split; intros; now rewrite ?lookup_empty.
  - intros name' value m acc Hfresh [IHnet IHother].
    change ("net" +:+ ":" +:+ name') with ("net:" +:+ name').
    split.
    + intros name. destruct (decide (name' = name)) as [->|Hne].
      * now rewrite !lookup_insert_eq.
      * rewrite !lookup_insert_ne; [apply IHnet | assumption |].
        intros Heq. apply Hne. now apply (inj (String.app "net:")).
    + intros key Hkey. rewrite lookup_insert_ne; [now apply IHother|].
      intros Heq. now apply (Hkey name').
Qed.

Lemma step_is_not_a_net_key (name : string) : "step" <> "net:" +:+ name.
Proof. discriminate. Qed.

(** What [get_shared_parameters] returns when sharing is on. *)
Lemma get_shared_parameters_lookup (self : t Tensor)
    (params : gmap string NdArray) :
  get_shared_parameters numpy asarray self = Some params ->
  params !! "step" = Some (asarray (step (_model self)))
  /\ (forall name,
         params !! ("net:" +:+ name) = numpy <$> net (_model self) !! name)
  /\ (forall key,
         key <> "step" -> (forall name, key <> "net:" +:+ name) ->
         params !! key = None).
Proof.
  unfold get_shared_parameters.
  destruct (if_share_params (_knobs self)); [|discriminate].
  cbn [negb]. intros [= <-].
  destruct (lookup_merge_params (net (_model self))) as [Hnet Hother].
  split; [apply lookup_insert_eq|]. split.
  - intros name. rewrite lookup_insert_ne; [apply Hnet|].
    apply step_is_not_a_net_key.
  - intros key Hstep Hkey. rewrite lookup_insert_ne; [|congruence].
    now apply Hother.
Qed.

(** C10.  [_load_shared_parameters] with an empty mapping is a no-op: it
    returns at once, and the object (net weights and step counter
    included) is as before. *)
Theorem load_shared_parameters_empty (self : t Tensor) :
  _load_shared_parameters shape from_numpy int_of self ∅ = Ok self.
Proof.
  unfold _load_shared_parameters. now rewrite map_size_empty.
Qed.

(** C9.  [get_shared_parameters] returns [None] whenever the knob
    [if_share_params] is false, whatever the weights and the step; when
    the knob is true it returns the mapping that holds the step counter
    under ['step'], the array of every net tensor under ['net:' + name],
    and nothing else. *)
Theorem get_shared_parameters_knob (self : t Tensor) :
  (if_share_params (_knobs self) = false ->
   get_shared_parameters numpy asarray self = None)
  /\ (if_share_params (_knobs self) = true ->
      exists params,
        get_shared_parameters numpy asarray self = Some params
        /\ params !! "step" = Some (asarray (step (_model self)))
        /\ (forall name,
               params !! ("net:" +:+ name)
               = numpy <$> net (_model self) !! name)
        /\ (forall key,
               key <> "step" -> (forall name, key <> "net:" +:+ name) ->
               params !! key = None)).
Proof.
  split; intros Hknob.
  - unfold get_shared_parameters. now rewrite Hknob.
  - destruct (get_shared_parameters numpy asarray self) as [params|] eqn:E.
    + exists params. split; [reflexivity|].
      now apply get_shared_parameters_lookup.
    + unfold get_shared_parameters in E. rewrite Hknob in E. discriminate E.
Qed.

(** Importing a mapping that has a ['step'] entry: the net entries named in
    the mapping are overwritten, the others are kept. *)
Lemma load_shared_parameters_ok (self : t Tensor)
    (params : gmap string NdArray) (a : NdArray) (step' : Z) :
  params !! "step" = Some a -> int_of a = Some step' ->
  (forall name p a',
      net (_model self) !! name = Some p ->
      params !! ("net:" +:+ name) = Some a' ->
      shape (from_numpy a') = shape p) ->
  _load_shared_parameters shape from_numpy int_of self params
  = Ok {| _knobs := _knobs self; _train_params := _train_params self;
          _model :=
            {| net := merge copy_ (net (_model self))
                            (extract_params from_numpy params "net");
               step := step' |} |}.
Proof.
  intros Hstep Hint Hshape. unfold _load_shared_parameters.
  destruct (Nat.eqb_spec (size params) 0) as [Hsize|_].
  { apply map_size_empty_iff in Hsize. subst params.
    now rewrite lookup_empty in Hstep. }
  rewrite load_state_dict_lenient.
  rewrite bool_decide_eq_true_2.
  - now rewrite Hstep, Hint.
  - apply size_mismatch_empty. intros name p i Hp Hi.
    rewrite lookup_extract_params in Hi.
    destruct (params !! ("net:" +:+ name)) as [a'|] eqn:Ha; [|discriminate].
    injection Hi as <-. eapply Hshape; eassumption.
Qed.

(** C7, amended.  Importing shared parameters is best-effort: for every
    mapping with a ['step'] entry that converts to an integer, and whose
    arrays have the shapes of the net's tensors of the same name, no error
    is raised; every net tensor named in the mapping is replaced, every
    other net tensor is kept, and entries of the mapping unknown to the
    net are ignored.  [load_parameters] is strict: a saved state dict with
    a missing or an extra name raises an error, and one with exactly the
    names and shapes of the fresh net replaces every tensor. *)
Theorem import_policy :
  (forall (self : t Tensor) (params : gmap string NdArray) a step',
      params !! "step" = Some a -> int_of a = Some step' ->
      (forall name p a',
          net (_model self) !! name = Some p ->
          params !! ("net:" +:+ name) = Some a' ->
          shape (from_numpy a') = shape p) ->
      exists self',
        _load_shared_parameters shape from_numpy int_of self params
        = Ok self'
        /\ step (_model self') = step'
        /\ forall name,
             net (_model self') !! name
             = match net (_model self) !! name with
               | Some p =>
                   Some (default p
                           (from_numpy <$> params !! ("net:" +:+ name)))
               | None => None
               end)
  /\ (forall knobs train_params (state_dict : gmap string Tensor),
         dom state_dict
         <> dom (DenseNet (K train_params) (drop_rate knobs)) ->
         load_parameters shape DenseNet knobs train_params state_dict
         = Raise RuntimeError)
  /\ (forall knobs train_params (state_dict : gmap string Tensor),
         dom state_dict
         = dom (DenseNet (K train_params) (drop_rate knobs)) ->
         shapes_agree shape (DenseNet (K train_params) (drop_rate knobs))
                      state_dict ->
         load_parameters shape DenseNet knobs train_params state_dict
         = Ok {| _knobs := knobs; _train_params := train_params;
                 _model := {| net := state_dict; step := 0 |} |}).
Proof.
  split; [|split].
  - intros self params a step' Hstep Hint Hshape.
    eexists. split.
    { exact (load_shared_parameters_ok self params a step'
               Hstep Hint Hshape). }
    cbn [_model step net]. split; [reflexivity|].
    intros name. rewrite lookup_copy, lookup_extract_params. reflexivity.
  - intros knobs train_params state_dict Hdom.
    unfold load_parameters. cbn [_build_model net].
    now rewrite load_state_dict_strict_keys.
  - intros knobs train_params state_dict Hdom Hshape.
    unfold load_parameters. cbn [_build_model net step].
    now rewrite load_state_dict_strict_ok.
Qed.

(** C8.  Export with [get_shared_parameters], then import of that mapping
    with [_load_shared_parameters] into a model of the same architecture
    (the same names, with the same shapes): every net tensor and the step
    counter are those of the exporting model. *)
Theorem shared_parameters_round_trip (self other : t Tensor) :
  (forall x, from_numpy (numpy x) = x) ->
  (forall z, int_of (asarray z) = Some z) ->
  if_share_params (_knobs self) = true ->
  dom (net (_model other)) = dom (net (_model self)) ->
  shapes_agree shape (net (_model other)) (net (_model self)) ->
  exists params other',
    get_shared_parameters numpy asarray self = Some params
    /\ _load_shared_parameters shape from_numpy int_of other params
       = Ok other'
    /\ net (_model other') = net (_model self)
    /\ step (_model other') = step (_model self).
Proof.
  intros Hnumpy Hint Hknob Hdom Hshape.
  destruct (get_shared_parameters numpy asarray self) as [params|] eqn:E.
  2:{ unfold get_shared_parameters in E. rewrite Hknob in E. discriminate E. }
  destruct (get_shared_parameters_lookup self params E)
    as (Hstep & Hnet & _).
  assert (Hextract : extract_params from_numpy params "net"
                     = net (_model self)).
  { apply map_eq. intros name.
    rewrite lookup_extract_params, Hnet.
    destruct (net (_model self) !! name); cbn; [|reflexivity].
    now rewrite Hnumpy. }
  exists params. eexists. split; [reflexivity|]. split.
  - apply (load_shared_parameters_ok other params _ _ Hstep (Hint _)).
    intros name p a' Hp Ha. rewrite Hnet in Ha.
    destruct (net (_model self) !! name) as [x|] eqn:Hx; [|discriminate].
    injection Ha as <-. rewrite Hnumpy. eapply Hshape; eassumption.
  - cbn [_model net step]. split; [|reflexivity].
    rewrite Hextract. apply map_eq. intros name. rewrite lookup_copy.
    destruct (net (_model other) !! name) as [p|] eqn:Hp.
    + assert (is_Some (net (_model self) !! name)) as [x Hx].
      { apply elem_of_dom. rewrite <- Hdom. apply elem_of_dom.
        now exists p. }
      now rewrite Hx.
    + symmetry. apply not_elem_of_dom. rewrite <- Hdom.
      now apply not_elem_of_dom.
Qed.

End SerializerFacts.

(** *** The serializer on the small instance *)

Section SerializerExamples.

Import PyDenseNetBc.

Lemma toy_shapes_agree (w w' b b' : Toy.Tensor) (z z' : Z)
    (knobs knobs' : Knobs) :
  length w = length w' -> length b = length b' ->
  shapes_agree Toy.shape (net (_model (Toy.model knobs w b z)))
               (net (_model (Toy.model knobs' w' b' z'))).
Proof.
  intros Hw Hb name p i Hp Hi. cbn [Toy.model _model net] in Hp, Hi.
  unfold Toy.shape.
  destruct (decide (name = "classifier.weight")) as [->|Hnw].
  - rewrite lookup_insert_eq in Hp, Hi. congruence.
  - rewrite lookup_insert_ne in Hp, Hi by congruence.
    destruct (decide (name = "classifier.bias")) as [->|Hnb].
    + rewrite lookup_insert_eq in Hp, Hi. congruence.
    + rewrite lookup_insert_ne in Hp by congruence.
      now rewrite lookup_empty in Hp.
Qed.

(** C7, counterexample.  [load_parameters] on the small instance: a saved
    state dict with one name more than the fresh net, and one with a name
    less, both raise. *)
Lemma load_parameters_is_strict :
  load_parameters Toy.shape Toy.DenseNet (Toy.knobs true 3 2)
    Toy.train_params (<["extra" := [1]%Z]> (Toy.DenseNet 10 0))
  = Raise RuntimeError
  /\ load_parameters Toy.shape Toy.DenseNet (Toy.knobs true 3 2)
       Toy.train_params (delete "classifier.bias" (Toy.DenseNet 10 0))
     = Raise RuntimeError.
Proof. split; vm_compute; reflexivity. Qed.

(** The shared path, on a mapping with a step entry, a name unknown to the
    net and no entry for the bias: no error, the unknown name is ignored and
    the bias keeps its tensor. *)
Example load_shared_parameters_is_lenient :
  let self := Toy.model (Toy.knobs true 3 2) [0; 0]%Z [0]%Z 0 in
  let params : gmap string Toy.NdArray :=
    <["step" := [7]%Z]>
      (<["net:extra" := [1]%Z]>
         (<["net:classifier.weight" := [4; 5]%Z]> ∅)) in
  _load_shared_parameters Toy.shape Toy.from_numpy Toy.int_of self params
  = Ok (Toy.model (Toy.knobs true 3 2) [4; 5]%Z [0]%Z 7).
Proof. vm_compute. reflexivity. Qed.

(** A non-empty mapping without a ['step'] entry makes
    [int(params['step'])] raise. *)
Example load_shared_parameters_without_step :
  _load_shared_parameters Toy.shape Toy.from_numpy Toy.int_of
    (Toy.model (Toy.knobs true 3 2) [0; 0]%Z [0]%Z 0)
    (<["net:classifier.bias" := [5]%Z]> ∅)
  = Raise KeyError.
Proof. vm_compute. reflexivity. Qed.

(** An instance: the shared path ignores the unknown name and keeps the
    bias; [load_parameters] rejects the state dict with the extra name. *)
Lemma import_policy_witness :
  (exists self',
      _load_shared_parameters Toy.shape Toy.from_numpy Toy.int_of
        (Toy.model (Toy.knobs true 3 2) [0; 0]%Z [0]%Z 0)
        (<["step" := [7]%Z]> (<["net:extra" := [1]%Z]> ∅))
      = Ok self'
      /\ step (_model self') = 7%Z
      /\ net (_model self') !! "classifier.bias" = Some [0]%Z)
  /\ load_parameters Toy.shape Toy.DenseNet (Toy.knobs true 3 2)
       Toy.train_params (<["extra" := [1]%Z]> (Toy.DenseNet 10 0))
     = Raise RuntimeError.
Proof.
  destruct (import_policy Toy.shape Toy.from_numpy Toy.int_of Toy.DenseNet)
    as (Hshared & Hstrict & _).
  split.
  - destruct (Hshared (Toy.model (Toy.knobs true 3 2) [0; 0]%Z [0]%Z 0)
                (<["step" := [7]%Z]> (<["net:extra" := [1]%Z]> ∅))
                [7]%Z 7%Z) as (self' & Hload & Hstep & Hnet).
    + reflexivity.
    + reflexivity.
    + intros name p a' Hp Ha.
      destruct (decide (name = "extra")) as [->|Hne].
      * vm_compute in Hp. discriminate Hp.
      * rewrite lookup_insert_ne in Ha by discriminate.
        rewrite lookup_insert_ne in Ha.
        -- now rewrite lookup_empty in Ha.
        -- intros Heq. apply Hne.
           now apply (inj (String.app "net:")) in Heq.
    + exists self'. split; [exact Hload|]. split; [exact Hstep|].
      rewrite Hnet. reflexivity.
  - apply Hstrict. intros Heq.
    apply (f_equal (λ names : gset string, bool_decide ("extra" ∈ names)))
      in Heq.
    vm_compute in Heq. discriminate Heq.
Defined.

(** An instance: the same model with the knob off and on. *)
Lemma get_shared_parameters_knob_witness :
  get_shared_parameters Toy.numpy Toy.asarray
    (Toy.model (Toy.knobs false 3 2) [1; 2]%Z [3]%Z 7) = None
  /\ exists params,
      get_shared_parameters Toy.numpy Toy.asarray
        (Toy.model (Toy.knobs true 3 2) [1; 2]%Z [3]%Z 7) = Some params
      /\ params !! "step" = Some [7]%Z
      /\ params !! "net:classifier.bias" = Some [3]%Z.
Proof.
  split.
  - now apply (get_shared_parameters_knob Toy.numpy Toy.asarray
                 (Toy.model (Toy.knobs false 3 2) [1; 2]%Z [3]%Z 7)).
  - destruct (get_shared_parameters_knob Toy.numpy Toy.asarray
                (Toy.model (Toy.knobs true 3 2) [1; 2]%Z [3]%Z 7))
      as [_ Hon].
    destruct (Hon eq_refl) as (params & Hget & Hstep & Hnet & _).
    exists params. split; [exact Hget|]. split; [exact Hstep|].
    exact (Hnet "classifier.bias").
Defined.

(** An instance: weights [1; 2], bias [3] and step 7 are exported and
    imported into a model that starts from zeros. *)
Lemma shared_parameters_round_trip_witness :
  let self := Toy.model (Toy.knobs true 3 2) [1; 2]%Z [3]%Z 7 in
  let other := Toy.model (Toy.knobs true 5 1) [0; 0]%Z [0]%Z 0 in
  exists params other',
    get_shared_parameters Toy.numpy Toy.asarray self = Some params
    /\ _load_shared_parameters Toy.shape Toy.from_numpy Toy.int_of
         other params = Ok other'
    /\ net (_model other') = net (_model self)
    /\ step (_model other') = 7%Z.
Proof.
  cbn zeta.
  apply (shared_parameters_round_trip Toy.shape Toy.numpy Toy.from_numpy
           Toy.asarray Toy.int_of).
  - reflexivity.
  - reflexivity.
  - reflexivity.
  - vm_compute. reflexivity.
  - now apply toy_shapes_agree.
Defined.

End SerializerExamples.

(** ** PyDenseNetBc: the training loop *)

Section TrainingLoopFacts.

Import PyDenseNetBc.

Context {Tensor Optim Sample Batch : Type}.
Context (_get_optimizer : Knobs -> gmap string Tensor -> Z -> Optim).
Context (scheduler_step : Optim -> Optim).
Context (DataLoader : list Sample -> Z -> bool -> Z -> list Batch).
Context (train_batch : gmap string Tensor -> Optim -> Batch ->
                       gmap string Tensor * Optim * float * float).
Context (train_val_batch : gmap string Tensor -> Batch ->
                           gmap string Tensor * float * float).
Context (cuda_is_available : bool).

#[local] Abbreviation body :=
  (epoch_body scheduler_step DataLoader train_batch train_val_batch).
#[local] Abbreviation loop :=
  (epoch_loop scheduler_step DataLoader train_batch train_val_batch).
#[local] Abbreviation train :=
  (_train_model _get_optimizer scheduler_step DataLoader train_batch
                train_val_batch cuda_is_available).

(** Where an element with a property occurs in [l1 ++ l2] when no element
    of [l1] has it. *)
Lemma app_eq_split {A : Type} (P : A -> bool) (l1 l2 pre post : list A)
    (x : A) :
  l1 ++ l2 = pre ++ x :: post ->
  Forall (λ y, P y = false) l1 -> P x = true ->
  exists pre', pre = l1 ++ pre' /\ l2 = pre' ++ x :: post.
Proof.
  revert pre. induction l1 as [|y l1 IH]; intros pre Heq Hall Hx.
  - exists pre. now split.
  - inversion Hall as [|? ? Hy Hall']; subst.
    destruct pre as [|z pre]; cbn in Heq.
    + injection Heq as -> _. congruence.
    + injection Heq as -> Heq.
      destruct (IH pre Heq Hall' Hx) as (pre' & -> & ->).
      now exists pre'.
Qed.

(** One iteration of the epoch loop, by cases on the train-val dataset and
    on the result of the check. *)
Lemma epoch_body_cases (train_dataset train_val_dataset : list Sample)
    (batch_size : Z) (vars : loop_vars Tensor Optim) (epoch : Z) :
  let '(vars', log, broke) :=
    body train_dataset train_val_dataset batch_size vars epoch in
  exists step train_loss train_acc,
    (train_val_dataset = [] /\ broke = false
     /\ log = [RunningEpoch epoch;
               TrainMetrics epoch step train_loss train_acc]
     /\ lv_early_stop_condition vars' = lv_early_stop_condition vars)
    \/ (train_val_dataset <> [] /\
        exists train_val_loss train_val_acc,
          log = [RunningEpoch epoch;
                 TrainMetrics epoch step train_loss train_acc;
                 TrainValMetrics epoch train_val_loss train_val_acc;
                 EarlyStopCheck train_val_loss broke]
                ++ (if broke
                    then [NotImproved
                            (EarlyStopCondition.patience
                               (lv_early_stop_condition vars'));
                          Message "Early stopping..."]
                    else [])
          /\ EarlyStopCondition.check (lv_early_stop_condition vars)
               (pyfloat_of train_val_loss)
             = (lv_early_stop_condition vars', broke)).
Proof.
  unfold epoch_body.
  destruct (fold_left _ (DataLoader train_dataset batch_size true epoch) _)
    as [[[[net optim] step] train_loss] train_acc].
  destruct train_val_dataset as [|sample rest]; cbn [length Nat.ltb Nat.leb].
  - exists step, (RunningAverage.get train_loss),
      (RunningAverage.get train_acc).
    left. repeat split.
  - destruct (fold_left _ (DataLoader (sample :: rest) batch_size false epoch)
                        _)
      as [[net' train_val_loss] train_val_acc].
    destruct (EarlyStopCondition.check _ _) as [early_stop_condition stop]
      eqn:Hcheck.
    destruct stop;
      exists step, (RunningAverage.get train_loss),
        (RunningAverage.get train_acc);
      right; (split; [discriminate|]);
      exists (RunningAverage.get train_val_loss),
        (RunningAverage.get train_val_acc);
      (split; [reflexivity | exact Hcheck]).
Qed.

(** With an empty train-val dataset every epoch of the list is run, and
    nothing of the validation pass is reported. *)
Lemma loop_without_train_val (train_dataset : list Sample) (batch_size : Z)
    (epochs : list Z) (vars : loop_vars Tensor Optim) :
  let '(vars', log) := loop train_dataset [] batch_size vars epochs in
  epochs_run log = epochs
  /\ Forall (λ ev, is_train_val_event ev = false) log
  /\ lv_early_stop_condition vars' = lv_early_stop_condition vars.
Proof.
  revert vars. induction epochs as [|epoch epochs IH]; intros vars.
  - cbn. repeat split. constructor.
  - cbn [epoch_loop].
    pose proof (epoch_body_cases train_dataset [] batch_size vars epoch)
      as Hbody.
    destruct (body train_dataset [] batch_size vars epoch)
      as [[vars1 log1] broke].
    destruct Hbody as (step & train_loss & train_acc & Hcase).
    destruct Hcase as [(_ & -> & -> & Hesc) | (Hne & _)]; [|easy].
    specialize (IH vars1).
    destruct (loop train_dataset [] batch_size vars1 epochs)
      as [vars2 log2].
    destruct IH as (Hrun & Hall & Hesc').
    split; [|split].
    + unfold epochs_run in *. cbn [app omap list_omap]. now f_equal.
    + cbn [app]. repeat constructor. exact Hall.
    + congruence.
Qed.

(** After a check that returned true, the log of the loop holds the two
    messages of the early stop and nothing else. *)
Lemma loop_stops (train_dataset train_val_dataset : list Sample)
    (batch_size : Z) (epochs : list Z) (vars : loop_vars Tensor Optim)
    (pre post : list event) (value : float) :
  snd (loop train_dataset train_val_dataset batch_size vars epochs)
  = pre ++ EarlyStopCheck value true :: post ->
  exists patience,
    post = [NotImproved patience; Message "Early stopping..."].
Proof.
  revert vars pre. induction epochs as [|epoch epochs IH]; intros vars pre.
  - cbn. intros Heq. now destruct pre.
  - cbn [epoch_loop].
    pose proof (epoch_body_cases train_dataset train_val_dataset batch_size
                                 vars epoch) as Hbody.
    destruct (body train_dataset train_val_dataset batch_size vars epoch)
      as [[vars1 log1] broke].
    destruct Hbody as (step & train_loss & train_acc & Hcase).
    destruct broke.
    + (* the iteration broke: its log ends with the check *)
      destruct Hcase as [(_ & Hbroke & _) | (_ & tvl & tva & -> & _)];
        [discriminate Hbroke|].
      cbn [snd]. intros Heq.
      destruct (app_eq_split is_stop
                  [RunningEpoch epoch;
                   TrainMetrics epoch step train_loss train_acc;
                   TrainValMetrics epoch tvl tva]
                  _ pre post (EarlyStopCheck value true) Heq)
        as (pre' & _ & Htail); [repeat constructor | reflexivity |].
      destruct pre' as [|ev1 [|ev2 [|ev3 pre']]]; cbn in Htail.
      * injection Htail as _ <-. eexists. reflexivity.
      * discriminate Htail.
      * discriminate Htail.
      * injection Htail as _ _ _ Htail. now destruct pre'.
    + (* the iteration did not break: the check is in a later one *)
      specialize (IH vars1).
      destruct (loop train_dataset train_val_dataset batch_size vars1 epochs)
        as [vars2 log2]. cbn [snd] in *.
      intros Heq.
      destruct (app_eq_split is_stop log1 log2 pre post
                  (EarlyStopCheck value true) Heq)
        as (pre' & _ & Htail); [|reflexivity|].
      * destruct Hcase as [(_ & _ & -> & _) | (_ & tvl & tva & -> & _)];
          repeat constructor.
      * now apply (IH pre').
Qed.

(** The epochs run are an initial segment of the epochs given. *)
Lemma loop_epochs_prefix (train_dataset train_val_dataset : list Sample)
    (batch_size : Z) (epochs : list Z) (vars : loop_vars Tensor Optim) :
  epochs_run
    (snd (loop train_dataset train_val_dataset batch_size vars epochs))
  `prefix_of` epochs.
Proof.
  revert vars. induction epochs as [|epoch epochs IH]; intros vars.
  - cbn. reflexivity.
  - cbn [epoch_loop].
    pose proof (epoch_body_cases train_dataset train_val_dataset batch_size
                                 vars epoch) as Hbody.
    destruct (body train_dataset train_val_dataset batch_size vars epoch)
      as [[vars1 log1] broke].
    destruct Hbody as (step & train_loss & train_acc & Hcase).
    assert (Hrun1 : epochs_run log1 = [epoch]).
    { destruct Hcase as [(_ & _ & -> & _) | (_ & tvl & tva & -> & _)];
        [reflexivity|]. now destruct broke. }
    destruct broke; cbn [snd].
    + rewrite Hrun1. apply prefix_cons, prefix_nil.
    + specialize (IH vars1).
      destruct (loop train_dataset train_val_dataset batch_size vars1 epochs)
        as [vars2 log2]. cbn [snd] in *.
      unfold epochs_run in *. rewrite omap_app, Hrun1.
      cbn [app]. now apply prefix_cons.
Qed.

(** C6.  In [_train_model]: with an empty train-val dataset the loop runs
    every one of the configured epochs and reports nothing of a validation
    pass or an early-stop check; any such report means that the train-val
    dataset is not empty; and once a check has returned true, only the two
    early-stop messages follow: no further epoch is started.  In every
    case the epochs run are an initial segment of [range(trial_epochs)]. *)
Theorem train_model_early_stop (self : t Tensor)
    (train_dataset train_val_dataset : list Sample) :
  let log := snd (train self train_dataset train_val_dataset) in
  (train_val_dataset = [] ->
   epochs_run log = range (max_trial_epochs (_knobs self))
   /\ Forall (λ ev, is_train_val_event ev = false) log)
  /\ (forall ev,
         ev ∈ log -> is_train_val_event ev = true ->
         train_val_dataset <> [])
  /\ (forall pre value post,
         log = pre ++ EarlyStopCheck value true :: post ->
         epochs_run post = []
         /\ exists patience,
             post = [NotImproved patience; Message "Early stopping..."])
  /\ epochs_run log `prefix_of` range (max_trial_epochs (_knobs self)).
Proof.
  cbn zeta. unfold _train_model, _get_trial_epochs.
  set (vars0 := {| lv_net := net (_model self);
                   lv_optim := _ ;
                   lv_step := step (_model self);
                   lv_early_stop_condition := _ |}).
  set (log_start := _ ++ (if cuda_is_available then _ else [])).
  assert (Hstart_run : epochs_run log_start = [])
    by (subst log_start; now destruct cuda_is_available).
  assert (Hstart_val : Forall (λ ev, is_train_val_event ev = false) log_start)
    by (subst log_start; destruct cuda_is_available; repeat constructor).
  assert (Hstart_stop : Forall (λ ev, is_stop ev = false) log_start)
    by (subst log_start; destruct cuda_is_available; repeat constructor).
  assert (Hempty :
            train_val_dataset = [] ->
            epochs_run
              (log_start
               ++ snd (loop train_dataset train_val_dataset
                            (batch_size (_knobs self)) vars0
                            (range (max_trial_epochs (_knobs self)))))
            = range (max_trial_epochs (_knobs self))
            /\ Forall (λ ev, is_train_val_event ev = false)
                 (log_start
                  ++ snd (loop train_dataset train_val_dataset
                               (batch_size (_knobs self)) vars0
                               (range (max_trial_epochs (_knobs self)))))).
  { intros ->.
    pose proof (loop_without_train_val train_dataset
                  (batch_size (_knobs self))
                  (range (max_trial_epochs (_knobs self))) vars0) as Hloop.
    destruct (loop train_dataset [] (batch_size (_knobs self)) vars0
                   (range (max_trial_epochs (_knobs self))))
      as [vars log].
    destruct Hloop as (Hrun & Hall & _). cbn [snd]. split.
    - unfold epochs_run in *. now rewrite omap_app, Hstart_run, Hrun.
    - apply Forall_app. now split. }
  pose proof (loop_stops train_dataset train_val_dataset
                (batch_size (_knobs self))
                (range (max_trial_epochs (_knobs self))) vars0) as Hstops.
  pose proof (loop_epochs_prefix train_dataset train_val_dataset
                (batch_size (_knobs self))
                (range (max_trial_epochs (_knobs self))) vars0) as Hprefix.
  destruct (loop train_dataset train_val_dataset (batch_size (_knobs self))
                 vars0 (range (max_trial_epochs (_knobs self))))
    as [vars log].
  cbn [snd] in *.
  split; [exact Hempty|]. split; [|split].
  - intros ev Hin Hval ->.
    destruct (Hempty eq_refl) as [_ Hall].
    rewrite Forall_forall in Hall. specialize (Hall ev Hin). congruence.
  - intros pre value post Heq.
    destruct (app_eq_split is_stop log_start log pre post
                (EarlyStopCheck value true) Heq Hstart_stop eq_refl)
      as (pre' & _ & Hlog).
    destruct (Hstops pre' post value Hlog) as [patience ->].
    split; [reflexivity|]. now exists patience.
  - unfold epochs_run in *. now rewrite omap_app, Hstart_run.
Qed.

End TrainingLoopFacts.

(** *** The training loop on the small instance *)

Section TrainingLoopExamples.

Import PyDenseNetBc.

(** Five epochs and patience 1.  Without train-val samples all five epochs
    run.  With the train-val samples 3 and 4 the average loss is 7/2 in
    every epoch: epoch 0 improves on +inf, epoch 1 does not, the check
    returns true and epochs 2, 3 and 4 are not run. *)
Lemma train_model_early_stop_witness :
  let self := Toy.model (Toy.knobs true 5 1) [0; 0]%Z [0]%Z 0 in
  let log := snd (Toy._train_model self [1; 2]%float [3; 4]%float) in
  epochs_run (snd (Toy._train_model self [1; 2]%float []))
  = [0; 1; 2; 3; 4]%Z
  /\ log = take 10 log ++ EarlyStopCheck 3.5%float true :: drop 11 log
  /\ epochs_run (take 10 log) = [0; 1]%Z
  /\ epochs_run (drop 11 log) = [].
Proof.
  cbn zeta. split.
  - destruct (train_model_early_stop (λ _ _ _, tt) (λ o, o) Toy.DataLoader
                Toy.train_batch Toy.train_val_batch false
                (Toy.model (Toy.knobs true 5 1) [0; 0]%Z [0]%Z 0)
                [1; 2]%float []) as (Hempty & _).
    destruct (Hempty eq_refl) as [Hrun _]. exact Hrun.
  - destruct (train_model_early_stop (λ _ _ _, tt) (λ o, o) Toy.DataLoader
                Toy.train_batch Toy.train_val_batch false
                (Toy.model (Toy.knobs true 5 1) [0; 0]%Z [0]%Z 0)
                [1; 2]%float [3; 4]%float) as (_ & _ & Hstop & _).
    assert (Hsplit :
              snd (Toy._train_model
                     (Toy.model (Toy.knobs true 5 1) [0; 0]%Z [0]%Z 0)
                     [1; 2]%float [3; 4]%float)
              = take 10 (snd (Toy._train_model
                                (Toy.model (Toy.knobs true 5 1)
                                           [0; 0]%Z [0]%Z 0)
                                [1; 2]%float [3; 4]%float))
                ++ EarlyStopCheck 3.5%float true
                :: drop 11 (snd (Toy._train_model
                                   (Toy.model (Toy.knobs true 5 1)
                                              [0; 0]%Z [0]%Z 0)
                                   [1; 2]%float [3; 4]%float)))
      by (vm_compute; reflexivity).
    split; [exact Hsplit|]. split; [vm_compute; reflexivity|].
    exact (proj1 (Hstop _ _ _ Hsplit)).
Defined.

End TrainingLoopExamples.

(** * Further properties *)

(** ** EarlyStopCondition: runs of calls *)

Section EarlyStopConditionMore.

Import EarlyStopCondition.

Lemma Qltb_lt (a b : Q) : Qltb a b = true <-> (a < b)%Q.
Proof. unfold Qltb, Qlt. apply Z.ltb_lt. Qed.

Lemma float_lt_irrefl (a : pyfloat) : float_lt a a = false.
Proof.
  destruct a as [q| | |]; cbn; try reflexivity.
  destruct (Qltb q q) eqn:E; [|reflexivity].
  apply Qltb_lt in E. now apply Qlt_irrefl in E.
Qed.

Lemma float_lt_trans (a b c : pyfloat) :
  float_lt a b = true -> float_lt b c = true -> float_lt a c = true.
Proof.
  destruct a as [x| | |], b as [y| | |], c as [z| | |]; cbn;
    try congruence.
  rewrite !Qltb_lt. apply Qlt_trans.
Qed.

(** Whether a value improves depends on the direction and on the best seen
    only. *)
Lemma strictly_improves_ext (self self' : t) (value : pyfloat) :
  _if_max self' = _if_max self -> _last_best self' = _last_best self ->
  strictly_improves self' value = strictly_improves self value.
Proof. unfold strictly_improves. now intros -> ->. Qed.

(** One call on an object with patience >= 0, by cases. *)
Lemma check_cases (self : t) (value : pyfloat) :
  (0 <= _patience self)%Z ->
  check self value
  = if strictly_improves self value
    then ({| _patience := _patience self; _if_max := _if_max self;
             _last_best := value; _wait_count := 0 |},
          (0 >=? _patience self)%Z)
    else ({| _patience := _patience self; _if_max := _if_max self;
             _last_best := _last_best self;
             _wait_count := _wait_count self + 1 |},
          (_wait_count self + 1 >=? _patience self)%Z).
Proof.
  intros Hp. unfold check. rewrite improved_strictly_improves.
  destruct (Z.ltb_spec (_patience self) 0); [lia|].
  destruct (strictly_improves self value); cbn [_wait_count _patience];
    match goal with |- context [(?a >=? ?b)%Z] => now destruct (a >=? b)%Z end.
Qed.

(** For patience >= 1 a value that strictly improves on the best seen never
    signals a stop: a stop comes only from a call that did not improve. *)
Theorem improving_value_never_stops (self : t) (value : pyfloat) :
  (1 <= _patience self)%Z ->
  strictly_improves self value = true ->
  snd (check self value) = false.
Proof.
  intros Hp Himp. rewrite check_cases by lia. rewrite Himp. cbn [snd].
  destruct (Z.geb_spec 0 (_patience self)); [lia | reflexivity].
Qed.

(** An instance: patience 1, the first value. *)
Lemma improving_value_never_stops_witness :
  snd (check (__init__ 1 false) (Finite 5)) = false.
Proof.
  apply improving_value_never_stops; [cbn; lia | reflexivity].
Defined.

(** A run of calls none of which improves on the best seen at its start:
    the [i]-th call (from 0) leaves the best seen as it was, brings the wait
    counter to its initial value plus [i + 1], and signals a stop exactly
    when that reaches the patience. *)
Theorem non_improving_run (self : t) (values : list pyfloat) (i : nat)
    (r : t * bool) :
  (0 <= _patience self)%Z ->
  Forall (λ v, strictly_improves self v = false) values ->
  check_all self values !! i = Some r ->
  _last_best (fst r) = _last_best self
  /\ _wait_count (fst r) = (_wait_count self + Z.of_nat i + 1)%Z
  /\ snd r = (_wait_count self + Z.of_nat i + 1 >=? _patience self)%Z.
Proof.
  intros Hp Hall. revert self i Hp Hall.
  induction values as [|v values IH]; intros self i Hp Hall Hi;
    [discriminate Hi|].
  inversion Hall as [|? ? Hv Hrest]; subst.
  cbn [check_all] in Hi. rewrite check_cases in Hi by assumption.
  rewrite Hv in Hi. cbn [fst] in Hi.
  destruct i as [|i]; cbn in Hi.
  - injection Hi as <-. cbn. repeat split; f_equal; lia.
  - apply IH in Hi; cbn [_patience _last_best _wait_count _if_max] in *.
    + destruct Hi as (Hb & Hw & Hs). rewrite Hb, Hw, Hs.
      repeat split; f_equal; lia.
    + assumption.
    + eapply Forall_impl; [exact Hrest|]. cbn beta. intros v' Hv'.
      rewrite <- Hv'. now apply strictly_improves_ext.
Qed.

(** An instance: patience 2, best seen 4, then 6, 7, 8; the third call
    (index 2) has counter 3 and signals a stop. *)
Lemma non_improving_run_witness :
  let self := fst (check (__init__ 2 false) (Finite 4)) in
  exists r,
    check_all self [Finite 6; Finite 7; Finite 8] !! 2%nat = Some r
    /\ _last_best (fst r) = Finite 4
    /\ _wait_count (fst r) = 3%Z
    /\ snd r = true.
Proof.
  cbn zeta. eexists. split; [reflexivity|].
  apply (non_improving_run (fst (check (__init__ 2 false) (Finite 4)))
           [Finite 6; Finite 7; Finite 8] 2).
  - cbn. lia.
  - repeat constructor.
  - reflexivity.
Defined.

(** The wait counter grows by at most one per call, so an object whose
    counter plus the number of calls stays below the patience signals no
    stop. *)
Lemma no_stop_below_patience (self : t) (values : list pyfloat) :
  (0 <= _wait_count self)%Z ->
  (_wait_count self + Z.of_nat (length values) < _patience self)%Z ->
  Forall (λ r, snd r = false) (check_all self values).
Proof.
  revert self. induction values as [|v values IH]; intros self Hw Hlt;
    [constructor|].
  cbn [length] in Hlt. cbn [check_all].
  rewrite check_cases by lia.
  destruct (strictly_improves self v); cbn [fst snd]; constructor.
  - destruct (Z.geb_spec 0 (_patience self)); [lia | reflexivity].
  - apply IH; cbn [_wait_count _patience]; lia.
  - destruct (Z.geb_spec (_wait_count self + 1) (_patience self));
      [lia | reflexivity].
  - apply IH; cbn [_wait_count _patience]; lia.
Qed.

(** A fresh condition with patience [p] signals no stop during its first
    [p - 1] calls, whatever the values. *)
Theorem no_stop_before_patience (patience : Z) (if_max : bool)
    (values : list pyfloat) :
  (Z.of_nat (length values) < patience)%Z ->
  Forall (λ r, snd r = false) (check_all (__init__ patience if_max) values).
Proof.
  intros Hlen. apply no_stop_below_patience; cbn; lia.
Qed.

(** An instance: patience 3, two values that do not improve after the
    first. *)
Lemma no_stop_before_patience_witness :
  Forall (λ r, snd r = false)
         (check_all (__init__ 3 false) [Finite 1; Finite 9]).
Proof.
  apply no_stop_before_patience. cbn. lia.
Defined.

(** The object after a sequence of calls. *)
Lemma check_all_app (self : t) (values : list pyfloat) (value : pyfloat) :
  fold_left (λ s v, fst (check s v)) (values ++ [value]) self
  = fst (check (fold_left (λ s v, fst (check s v)) values self) value).
Proof. now rewrite fold_left_app. Qed.

(** The best seen is a best value: after any sequence of calls on a fresh
    condition with patience >= 0, none of the values passed improves
    strictly on the stored best, and the stored best is the initial
    infinity or one of the values passed. *)
Theorem last_best_is_best (patience : Z) (if_max : bool)
    (values : list pyfloat) :
  (0 <= patience)%Z ->
  let final :=
    fold_left (λ s v, fst (check s v)) values (__init__ patience if_max) in
  Forall (λ v, strictly_improves final v = false) values
  /\ (_last_best final = _last_best (__init__ patience if_max)
      \/ _last_best final ∈ values).
Proof.
  intros Hp. cbn zeta.
  induction values as [|v values IH] using rev_ind.
  - split; [constructor | now left].
  - rewrite check_all_app.
    set (s := fold_left (λ s v, fst (check s v)) values
                        (__init__ patience if_max)) in *.
    assert (Hcfg : _patience s = patience /\ _if_max s = if_max).
    { subst s. clear IH.
      induction values as [|u values IHv] using rev_ind; [easy|].
      rewrite check_all_app.
      destruct (check_config
                  (fold_left (λ s v, fst (check s v)) values
                             (__init__ patience if_max)) u) as [-> ->].
      exact IHv. }
    destruct Hcfg as [Hps Hms]. destruct IH as [IHall IHmem].
    rewrite check_cases by lia.
    destruct (strictly_improves s v) eqn:Himp; cbn [fst _last_best].
    + split.
      * apply Forall_app. split.
        -- eapply Forall_impl; [exact IHall|]. cbn beta. intros u Hu.
           unfold strictly_improves in *.
           cbn [_if_max _last_best]. unfold float_gt in *.
           destruct (_if_max s).
           ++ destruct (float_lt v u) eqn:E; [|reflexivity].
              rewrite (float_lt_trans _ _ _ Himp E) in Hu. discriminate Hu.
           ++ destruct (float_lt u v) eqn:E; [|reflexivity].
              rewrite (float_lt_trans _ _ _ E Himp) in Hu. discriminate Hu.
        -- constructor; [|constructor].
           unfold strictly_improves, float_gt. cbn [_if_max _last_best].
           destruct (_if_max s); apply float_lt_irrefl.
      * right. apply elem_of_app. right. now apply list_elem_of_singleton.
    + split.
      * apply Forall_app. split.
        -- eapply Forall_impl; [exact IHall|]. cbn beta. intros u Hu.
           rewrite <- Hu. now apply strictly_improves_ext.
        -- constructor; [|constructor].
           rewrite <- Himp. now apply strictly_improves_ext.
      * destruct IHmem as [Hinit|Hin]; [now left|].
        right. apply elem_of_app. now left.
Qed.

(** An instance: patience 2, minimizing, the values 5, 4, 6, 7. *)
Lemma last_best_is_best_witness :
  let final :=
    fold_left (λ s v, fst (check s v))
              [Finite 5; Finite 4; Finite 6; Finite 7] (__init__ 2 false) in
  Forall (λ v, strictly_improves final v = false)
         [Finite 5; Finite 4; Finite 6; Finite 7]
  /\ _last_best final = Finite 4.
Proof.
  cbn zeta.
  destruct (last_best_is_best 2 false
              [Finite 5; Finite 4; Finite 6; Finite 7]) as [Hall _];
    [lia|].
  split; [exact Hall | reflexivity].
Defined.

End EarlyStopConditionMore.

(** ** PyDenseNetBc: more on the training loop *)

Section TrainingLoopMore.

Import PyDenseNetBc.

Context {Tensor Optim Sample Batch : Type}.
Context (_get_optimizer : Knobs -> gmap string Tensor -> Z -> Optim).
Context (scheduler_step : Optim -> Optim).
Context (DataLoader : list Sample -> Z -> bool -> Z -> list Batch).
Context (train_batch : gmap string Tensor -> Optim -> Batch ->
                       gmap string Tensor * Optim * float * float).
Context (train_val_batch : gmap string Tensor -> Batch ->
                           gmap string Tensor * float * float).
Context (cuda_is_available : bool).

#[local] Abbreviation body :=
  (epoch_body scheduler_step DataLoader train_batch train_val_batch).
#[local] Abbreviation loop :=
  (epoch_loop scheduler_step DataLoader train_batch train_val_batch).
#[local] Abbreviation train :=
  (_train_model _get_optimizer scheduler_step DataLoader train_batch
                train_val_batch cuda_is_available).

(** The inner training loop adds one to [step] per batch. *)
Lemma train_body_step (batches : list Batch)
    (carried : gmap string Tensor * Optim * Z
               * RunningAverage.t * RunningAverage.t) :
  snd (fst (fst (fold_left (train_body train_batch) batches carried)))
  = (snd (fst (fst carried)) + Z.of_nat (length batches))%Z.
Proof.
  revert carried. induction batches as [|b batches IH]; intros carried.
  - cbn. lia.
  - cbn [fold_left length]. rewrite IH.
    destruct carried as [[[[net optim] step] tl] ta]. unfold train_body.
    destruct (train_batch net optim b) as [[[net' optim'] loss] acc].
    cbn [fst snd]. lia.
Qed.

Lemma epoch_body_step (train_dataset train_val_dataset : list Sample)
    (batch_size : Z) (vars : loop_vars Tensor Optim) (epoch : Z) :
  lv_step (fst (fst (body train_dataset train_val_dataset batch_size
                          vars epoch)))
  = (lv_step vars
     + Z.of_nat (length (DataLoader train_dataset batch_size true epoch)))%Z.
Proof.
  unfold epoch_body.
  pose proof (train_body_step
                (DataLoader train_dataset batch_size true epoch)
                (lv_net vars, scheduler_step (lv_optim vars), lv_step vars,
                 RunningAverage.__init__, RunningAverage.__init__)) as Hstep.
  destruct (fold_left _ (DataLoader train_dataset batch_size true epoch) _)
    as [[[[net optim] step] train_loss] train_acc].
  cbn [fst snd] in Hstep. subst step.
  destruct (0 <? length train_val_dataset)%nat; [|reflexivity].
  destruct (fold_left _ (DataLoader train_val_dataset batch_size false epoch)
                      _) as [[net' train_val_loss] train_val_acc].
  destruct (EarlyStopCondition.check _ _) as [early_stop_condition stop].
  now destruct stop.
Qed.

Lemma epochs_run_body (train_dataset train_val_dataset : list Sample)
    (batch_size : Z) (vars : loop_vars Tensor Optim) (epoch : Z) :
  epochs_run (snd (fst (body train_dataset train_val_dataset batch_size
                             vars epoch))) = [epoch].
Proof.
  pose proof (epoch_body_cases scheduler_step DataLoader train_batch
                train_val_batch train_dataset train_val_dataset batch_size
                vars epoch) as Hbody.
  destruct (body train_dataset train_val_dataset batch_size vars epoch)
    as [[vars1 log1] broke].
  destruct Hbody as (step & train_loss & train_acc & Hcase). cbn [fst snd].
  destruct Hcase as [(_ & _ & -> & _) | (_ & tvl & tva & -> & _)];
    [reflexivity|]. now destruct broke.
Qed.

(** The step counter after the loop: one more per training batch of every
    epoch that was run. *)
Lemma loop_step (train_dataset train_val_dataset : list Sample)
    (batch_size : Z) (epochs : list Z) (vars : loop_vars Tensor Optim) :
  let '(vars', log) :=
    loop train_dataset train_val_dataset batch_size vars epochs in
  lv_step vars'
  = (lv_step vars
     + Z.of_nat
         (length
            (concat
               (map (λ epoch, DataLoader train_dataset batch_size true epoch)
                    (epochs_run log)))))%Z.
Proof.
  revert vars. induction epochs as [|epoch epochs IH]; intros vars.
  - cbn. lia.
  - cbn [epoch_loop].
    pose proof (epoch_body_step train_dataset train_val_dataset batch_size
                                vars epoch) as Hstep.
    pose proof (epochs_run_body train_dataset train_val_dataset batch_size
                                vars epoch) as Hrun.
    destruct (body train_dataset train_val_dataset batch_size vars epoch)
      as [[vars1 log1] broke].
    cbn [fst snd] in Hstep, Hrun.
    destruct broke.
    + rewrite Hrun. cbn [map concat]. rewrite app_nil_r. exact Hstep.
    + specialize (IH vars1).
      destruct (loop train_dataset train_val_dataset batch_size vars1 epochs)
        as [vars2 log2].
      rewrite IH, Hstep. unfold epochs_run in *. rewrite omap_app, Hrun.
      cbn [app map concat]. rewrite length_app. lia.
Qed.

(** The step counter that [_train_model] returns, in terms of the epochs
    run. *)
Lemma train_model_result (self : t Tensor)
    (train_dataset train_val_dataset : list Sample) :
  let self' := fst (train self train_dataset train_val_dataset) in
  let log := snd (train self train_dataset train_val_dataset) in
  step (_model self')
  = (step (_model self)
     + Z.of_nat
         (length
            (concat
               (map (λ epoch, DataLoader train_dataset
                                (batch_size (_knobs self)) true epoch)
                    (epochs_run log)))))%Z.
Proof.
  cbn zeta. unfold _train_model, _get_trial_epochs.
  set (vars0 := {| lv_net := net (_model self);
                   lv_optim := _ ;
                   lv_step := step (_model self);
                   lv_early_stop_condition := _ |}).
  pose proof (loop_step train_dataset train_val_dataset
                (batch_size (_knobs self))
                (range (max_trial_epochs (_knobs self))) vars0) as Hloop.
  destruct (loop train_dataset train_val_dataset (batch_size (_knobs self))
                 vars0 (range (max_trial_epochs (_knobs self))))
    as [vars log].
  cbn [fst snd _model step].
  rewrite Hloop. unfold epochs_run. rewrite omap_app.
  now destruct cuda_is_available.
Qed.

(** [_train_model] counts the training batches: the step counter grows by
    the number of batches of every epoch that was run (the train-val
    batches are not counted), and knobs and pre-processing parameters are
    left as they were. *)
Theorem train_model_step (self : t Tensor)
    (train_dataset train_val_dataset : list Sample) :
  let self' := fst (train self train_dataset train_val_dataset) in
  let log := snd (train self train_dataset train_val_dataset) in
  step (_model self')
  = (step (_model self)
     + Z.of_nat
         (length
            (concat
               (map (λ epoch, DataLoader train_dataset
                                (batch_size (_knobs self)) true epoch)
                    (epochs_run log)))))%Z
  /\ _knobs self' = _knobs self
  /\ _train_params self' = _train_params self.
Proof.
  cbn zeta. split; [apply train_model_result|].
  unfold _train_model.
  destruct (loop train_dataset train_val_dataset _ _ _) as [vars log].
  split; reflexivity.
Qed.

(** Without train-val samples [_train_model] runs every configured epoch
    and reports no validation. *)
Lemma train_model_no_train_val (self : t Tensor)
    (train_dataset : list Sample) :
  let log := snd (train self train_dataset []) in
  epochs_run log = range (max_trial_epochs (_knobs self))
  /\ Forall (λ ev, is_train_val_event ev = false) log.
Proof.
  cbn zeta. unfold _train_model, _get_trial_epochs.
  set (vars0 := {| lv_net := net (_model self);
                   lv_optim := _ ;
                   lv_step := step (_model self);
                   lv_early_stop_condition := _ |}).
  pose proof (loop_without_train_val scheduler_step DataLoader train_batch
                train_val_batch train_dataset (batch_size (_knobs self))
                (range (max_trial_epochs (_knobs self))) vars0) as Hloop.
  destruct (loop train_dataset [] (batch_size (_knobs self)) vars0
                 (range (max_trial_epochs (_knobs self))))
    as [vars log].
  destruct Hloop as (Hrun & Hall & _). cbn [snd]. split.
  - unfold epochs_run in *. rewrite omap_app, Hrun.
    now destruct cuda_is_available.
  - apply Forall_app. split; [|exact Hall].
    destruct cuda_is_available; repeat constructor.
Qed.

(** With a negative patience no iteration breaks. *)
Lemma loop_negative_patience (train_dataset train_val_dataset : list Sample)
    (batch_size : Z) (epochs : list Z) (vars : loop_vars Tensor Optim) :
  (EarlyStopCondition._patience (lv_early_stop_condition vars) < 0)%Z ->
  let '(vars', log) :=
    loop train_dataset train_val_dataset batch_size vars epochs in
  epochs_run log = epochs
  /\ Forall (λ ev, is_stop ev = false) log.
Proof.
  revert vars. induction epochs as [|epoch epochs IH]; intros vars Hneg.
  - cbn. split; [reflexivity | constructor].
  - cbn [epoch_loop].
    pose proof (epoch_body_cases scheduler_step DataLoader train_batch
                  train_val_batch train_dataset train_val_dataset batch_size
                  vars epoch) as Hbody.
    destruct (body train_dataset train_val_dataset batch_size vars epoch)
      as [[vars1 log1] broke].
    destruct Hbody as (step & train_loss & train_acc & Hcase).
    assert (Hvars1 :
              broke = false
              /\ lv_early_stop_condition vars1 = lv_early_stop_condition vars
              /\ epochs_run log1 = [epoch]
              /\ Forall (λ ev, is_stop ev = false) log1).
    { destruct Hcase as [(_ & -> & -> & Hesc)
                        | (_ & tvl & tva & -> & Hcheck)].
      - repeat split; [assumption|]. repeat constructor.
      - unfold EarlyStopCondition.check in Hcheck.
        destruct (Z.ltb_spec
                    (EarlyStopCondition._patience
                       (lv_early_stop_condition vars)) 0); [|lia].
        injection Hcheck as <- <-. repeat split. repeat constructor. }
    destruct Hvars1 as (-> & Hesc & Hrun1 & Hstop1).
    specialize (IH vars1). rewrite Hesc in IH. specialize (IH Hneg).
    destruct (loop train_dataset train_val_dataset batch_size vars1 epochs)
      as [vars2 log2].
    destruct IH as [Hrun2 Hstop2]. split.
    + unfold epochs_run in *. now rewrite omap_app, Hrun1, Hrun2.
    + apply Forall_app. now split.
Qed.

(** With a negative [early_stop_patience_epochs] the loop runs every
    configured epoch, with or without train-val samples: no check returns
    true. *)
Theorem train_model_negative_patience (self : t Tensor)
    (train_dataset train_val_dataset : list Sample) :
  (early_stop_patience_epochs (_knobs self) < 0)%Z ->
  let log := snd (train self train_dataset train_val_dataset) in
  epochs_run log = range (max_trial_epochs (_knobs self))
  /\ Forall (λ ev, is_stop ev = false) log.
Proof.
  intros Hneg. cbn zeta. unfold _train_model, _get_trial_epochs.
  set (vars0 := {| lv_net := net (_model self);
                   lv_optim := _ ;
                   lv_step := step (_model self);
                   lv_early_stop_condition := _ |}).
  pose proof (loop_negative_patience train_dataset train_val_dataset
                (batch_size (_knobs self))
                (range (max_trial_epochs (_knobs self))) vars0 Hneg) as Hloop.
  destruct (loop train_dataset train_val_dataset (batch_size (_knobs self))
                 vars0 (range (max_trial_epochs (_knobs self))))
    as [vars log].
  destruct Hloop as [Hrun Hstop]. cbn [snd]. split.
  - unfold epochs_run in *. rewrite omap_app, Hrun.
    now destruct cuda_is_available.
  - apply Forall_app. split; [|exact Hstop].
    destruct cuda_is_available; repeat constructor.
Qed.

(** The wait counter grows by at most one per epoch, so the loop runs at
    least as many epochs as the patience exceeds the counter, if there are
    that many. *)
Lemma loop_min_epochs (train_dataset train_val_dataset : list Sample)
    (batch_size : Z) (epochs : list Z) (vars : loop_vars Tensor Optim) :
  (0 <= EarlyStopCondition._wait_count (lv_early_stop_condition vars))%Z ->
  (Z.min (Z.of_nat (length epochs))
         (EarlyStopCondition._patience (lv_early_stop_condition vars)
          - EarlyStopCondition._wait_count (lv_early_stop_condition vars))
   <= Z.of_nat
        (length
           (epochs_run
              (snd (loop train_dataset train_val_dataset batch_size vars
                         epochs)))))%Z.
Proof.
  revert vars. induction epochs as [|epoch epochs IH]; intros vars Hw.
  - cbn. lia.
  - cbn [epoch_loop].
    pose proof (epoch_body_cases scheduler_step DataLoader train_batch
                  train_val_batch train_dataset train_val_dataset batch_size
                  vars epoch) as Hbody.
    pose proof (epochs_run_body train_dataset train_val_dataset batch_size
                                vars epoch) as Hrun1.
    destruct (body train_dataset train_val_dataset batch_size vars epoch)
      as [[vars1 log1] broke].
    cbn [fst snd] in Hrun1.
    destruct Hbody as (step & train_loss & train_acc & Hcase).
    set (esc := lv_early_stop_condition vars) in *.
    assert (Hesc1 :
              EarlyStopCondition._patience (lv_early_stop_condition vars1)
              = EarlyStopCondition._patience esc
              /\ (0 <= EarlyStopCondition._wait_count
                         (lv_early_stop_condition vars1)
                  <= EarlyStopCondition._wait_count esc + 1)%Z
              /\ (broke = true ->
                  (EarlyStopCondition._patience esc
                   <= EarlyStopCondition._wait_count esc + 1)%Z)).
    { destruct Hcase as [(_ & -> & _ & ->) | (_ & tvl & tva & _ & Hcheck)].
      - repeat split; [lia | lia | discriminate].
      - destruct (Z.ltb_spec (EarlyStopCondition._patience esc) 0) as [Hn|Hp].
        + unfold EarlyStopCondition.check in Hcheck.
          destruct (Z.ltb_spec (EarlyStopCondition._patience esc) 0); [|lia].
          injection Hcheck as <- <-. repeat split; [lia | lia | discriminate].
        + rewrite check_cases in Hcheck by assumption.
          destruct (EarlyStopCondition.strictly_improves esc (pyfloat_of tvl));
            injection Hcheck as <- <-;
            cbn [EarlyStopCondition._patience
                   EarlyStopCondition._wait_count];
            (repeat split; [lia | lia |]); intros Hb;
            match type of Hb with
            | (?a >=? ?b)%Z = true => destruct (Z.geb_spec a b)
            end; (lia || discriminate). }
    destruct Hesc1 as (Hp1 & Hw1 & Hbroke).
    destruct broke; cbn [snd].
    + rewrite Hrun1. cbn [length]. specialize (Hbroke eq_refl). lia.
    + specialize (IH vars1 (proj1 Hw1)).
      destruct (loop train_dataset train_val_dataset batch_size vars1 epochs)
        as [vars2 log2]. cbn [snd] in *.
      unfold epochs_run in *. rewrite omap_app, Hrun1.
      cbn [app length]. lia.
Qed.

(** Early stopping never ends training before [early_stop_patience_epochs]
    epochs have been run, unless fewer are configured. *)
Theorem train_model_min_epochs (self : t Tensor)
    (train_dataset train_val_dataset : list Sample) :
  (Z.min (early_stop_patience_epochs (_knobs self))
         (max_trial_epochs (_knobs self))
   <= Z.of_nat
        (length
           (epochs_run
              (snd (train self train_dataset train_val_dataset)))))%Z.
Proof.
  unfold _train_model, _get_trial_epochs.
  set (vars0 := {| lv_net := net (_model self);
                   lv_optim := _ ;
                   lv_step := step (_model self);
                   lv_early_stop_condition := _ |}).
  pose proof (loop_min_epochs train_dataset train_val_dataset
                (batch_size (_knobs self))
                (range (max_trial_epochs (_knobs self))) vars0) as Hloop.
  destruct (loop train_dataset train_val_dataset (batch_size (_knobs self))
                 vars0 (range (max_trial_epochs (_knobs self))))
    as [vars log].
  cbn [snd] in *. unfold epochs_run in *. rewrite omap_app, length_app.
  subst vars0. cbn in Hloop. unfold range in Hloop.
  rewrite length_map, length_seq in Hloop. lia.
Qed.

Lemma range_cons (n : Z) :
  (1 <= n)%Z -> exists rest, range n = 0%Z :: rest.
Proof.
  intros Hn. unfold range.
  destruct (Z.to_nat n) as [|k] eqn:E; [lia|].
  cbn [seq map]. now eexists.
Qed.

(** With [early_stop_patience_epochs] 0 and a non-empty train-val dataset,
    the check of the first epoch returns true whatever the loss: exactly
    one epoch is run. *)
Theorem train_model_patience_zero (self : t Tensor)
    (train_dataset train_val_dataset : list Sample) :
  early_stop_patience_epochs (_knobs self) = 0%Z ->
  train_val_dataset <> [] ->
  (1 <= max_trial_epochs (_knobs self))%Z ->
  epochs_run (snd (train self train_dataset train_val_dataset)) = [0%Z].
Proof.
  intros Hp Hne Hn. unfold _train_model, _get_trial_epochs.
  destruct (range_cons _ Hn) as [rest ->]. rewrite Hp.
  set (vars0 := {| lv_net := net (_model self);
                   lv_optim := _ ;
                   lv_step := step (_model self);
                   lv_early_stop_condition := _ |}).
  cbn [epoch_loop].
  pose proof (epoch_body_cases scheduler_step DataLoader train_batch
                train_val_batch train_dataset train_val_dataset
                (batch_size (_knobs self)) vars0 0%Z) as Hbody.
  pose proof (epochs_run_body train_dataset train_val_dataset
                (batch_size (_knobs self)) vars0 0%Z) as Hrun1.
  destruct (body train_dataset train_val_dataset (batch_size (_knobs self))
                 vars0 0%Z) as [[vars1 log1] broke].
  cbn [fst snd] in Hrun1.
  destruct Hbody as (step & train_loss & train_acc & Hcase).
  destruct Hcase as [(Hempty & _) | (_ & tvl & tva & _ & Hcheck)];
    [congruence|].
  assert (broke = true) as ->.
  { destruct (check_patience_zero (lv_early_stop_condition vars0)
                                  (pyfloat_of tvl)) as (Hs & _);
      [reflexivity | cbn; lia |].
    rewrite Hcheck in Hs. exact Hs. }
  cbn [snd]. unfold epochs_run in *. rewrite omap_app, Hrun1.
  now destruct cuda_is_available.
Qed.

End TrainingLoopMore.

(** *** More of the training loop on the small instance *)

Section TrainingLoopMoreExamples.

Import PyDenseNetBc.

(** An instance: patience -1, five epochs, constant train-val loss. *)
Lemma train_model_negative_patience_witness :
  epochs_run
    (snd (Toy._train_model
            (Toy.model (Toy.knobs true 5 (-1)) [0; 0]%Z [0]%Z 0)
            [1; 2]%float [3; 4]%float))
  = [0; 1; 2; 3; 4]%Z.
Proof.
  destruct (train_model_negative_patience (λ _ _ _, tt) (λ o, o)
              Toy.DataLoader Toy.train_batch Toy.train_val_batch false
              (Toy.model (Toy.knobs true 5 (-1)) [0; 0]%Z [0]%Z 0)
              [1; 2]%float [3; 4]%float) as [Hrun _]; [cbn; lia|].
  exact Hrun.
Defined.

(** An instance: patience 0, five epochs. *)
Lemma train_model_patience_zero_witness :
  epochs_run
    (snd (Toy._train_model
            (Toy.model (Toy.knobs true 5 0) [0; 0]%Z [0]%Z 0)
            [1; 2]%float [3; 4]%float))
  = [0%Z].
Proof.
  apply (train_model_patience_zero (λ _ _ _, tt) (λ o, o)
           Toy.DataLoader Toy.train_batch Toy.train_val_batch false
           (Toy.model (Toy.knobs true 5 0) [0; 0]%Z [0]%Z 0)
           [1; 2]%float [3; 4]%float).
  - reflexivity.
  - discriminate.
  - cbn. lia.
Defined.

End TrainingLoopMoreExamples.

(** ** PyDenseNetBc: more on the import of shared parameters *)

Section SerializerMore.

Import PyDenseNetBc.

Context {Tensor NdArray : Type}.
Context (shape : Tensor -> list nat).
Context (from_numpy : NdArray -> Tensor).
Context (int_of : NdArray -> option Z).

#[local] Abbreviation load :=
  (_load_shared_parameters shape from_numpy int_of).

(** The outcome of an import of a non-empty mapping, step by step. *)
Lemma load_shared_parameters_nonempty (self : t Tensor)
    (params : gmap string NdArray) :
  params <> ∅ ->
  load self params
  = if bool_decide (size_mismatch shape (net (_model self))
                                  (extract_params from_numpy params "net")
                    = ∅)
    then match params !! "step" with
         | None => Raise KeyError
         | Some a =>
             match int_of a with
             | None => Raise TypeError
             | Some step' =>
                 Ok {| _knobs := _knobs self;
                       _train_params := _train_params self;
                       _model :=
                         {| net := merge copy_ (net (_model self))
                                         (extract_params from_numpy params
                                                         "net");
                            step := step' |} |}
             end
         end
    else Raise RuntimeError.
Proof.
  intros Hne. unfold _load_shared_parameters.
  destruct (Nat.eqb_spec (size params) 0) as [Hsize|_].
  { now apply map_size_empty_iff in Hsize. }
  rewrite load_state_dict_lenient.
  now destruct (bool_decide _).
Qed.

(** A non-empty mapping without a ['step'] entry is never imported: the
    call raises. *)
Theorem load_shared_parameters_needs_step (self : t Tensor)
    (params : gmap string NdArray) :
  params <> ∅ -> params !! "step" = None ->
  load self params = Raise KeyError
  \/ load self params = Raise RuntimeError.
Proof.
  intros Hne Hstep. rewrite load_shared_parameters_nonempty by assumption.
  rewrite Hstep. destruct (bool_decide _); [now left | now right].
Qed.

(** Entries whose key is neither ['step'] nor starts with ['net:'] play no
    part in the import of a non-empty mapping. *)
Theorem load_shared_parameters_ignores_other_keys (self : t Tensor)
    (params : gmap string NdArray) (key : string) (value : NdArray) :
  params <> ∅ -> key <> "step" -> startswith key "net:" = false ->
  load self (<[key := value]> params) = load self params.
Proof.
  intros Hne Hstep Hnet.
  assert (Hextract : extract_params from_numpy (<[key := value]> params) "net"
                     = extract_params from_numpy params "net").
  { apply map_eq. intros name. rewrite !lookup_extract_params.
    rewrite lookup_insert_ne; [reflexivity|].
    now apply startswith_net_false. }
  rewrite !load_shared_parameters_nonempty; [|assumption|].
  - rewrite Hextract. now rewrite lookup_insert_ne.
  - intros Hempty. apply (f_equal (λ m, m !! key)) in Hempty.
    now rewrite lookup_insert_eq, lookup_empty in Hempty.
Qed.

(** Importing the same mapping a second time changes nothing. *)
Theorem load_shared_parameters_idempotent (self self' : t Tensor)
    (params : gmap string NdArray) :
  load self params = Ok self' -> load self' params = Ok self'.
Proof.
  intros Hload.
  destruct (decide (params = ∅)) as [->|Hne].
  { unfold _load_shared_parameters in *. rewrite map_size_empty in *.
    cbn [Nat.eqb] in *. now injection Hload as <-. }
  rewrite load_shared_parameters_nonempty in Hload by assumption.
  rewrite load_shared_parameters_nonempty by assumption.
  destruct (bool_decide _) eqn:Hshape; [|discriminate Hload].
  destruct (params !! "step") as [a|]; [|discriminate Hload].
  destruct (int_of a) as [step'|]; [|discriminate Hload].
  injection Hload as <-. cbn [_model net _knobs _train_params].
  set (sd := extract_params from_numpy params "net") in *.
  assert (Hnet : merge copy_ (merge copy_ (net (_model self)) sd) sd
                 = merge copy_ (net (_model self)) sd).
  { apply map_eq. intros name. rewrite !lookup_copy.
    destruct (net (_model self) !! name) as [p|]; [|reflexivity].
    now destruct (sd !! name). }
  rewrite Hnet. rewrite bool_decide_eq_true_2; [reflexivity|].
  apply size_mismatch_empty. intros name p i Hp Hi.
  rewrite lookup_copy in Hp.
  destruct (net (_model self) !! name) as [q|]; [|discriminate Hp].
  rewrite Hi in Hp. cbn in Hp. now injection Hp as <-.
Qed.

End SerializerMore.

(** *** More of the serializer on the small instance *)

Section SerializerMoreExamples.

Import PyDenseNetBc.

(** An instance: a mapping with one unknown entry only. *)
Lemma load_shared_parameters_needs_step_witness :
  _load_shared_parameters Toy.shape Toy.from_numpy Toy.int_of
    (Toy.model (Toy.knobs true 3 2) [0; 0]%Z [0]%Z 0)
    (<["epoch" := [5]%Z]> ∅)
  = Raise KeyError.
Proof.
  destruct (load_shared_parameters_needs_step Toy.shape Toy.from_numpy
              Toy.int_of
              (Toy.model (Toy.knobs true 3 2) [0; 0]%Z [0]%Z 0)
              (<["epoch" := [5]%Z]> ∅)) as [H|H].
  - intros Hempty. apply (f_equal (λ m, m !! "epoch")) in Hempty.
    vm_compute in Hempty. discriminate Hempty.
  - reflexivity.
  - exact H.
  - vm_compute in H. discriminate H.
Defined.

(** An instance: an extra ['epoch'] entry beside the step. *)
Lemma load_shared_parameters_ignores_other_keys_witness :
  _load_shared_parameters Toy.shape Toy.from_numpy Toy.int_of
    (Toy.model (Toy.knobs true 3 2) [0; 0]%Z [0]%Z 0)
    (<["epoch" := [5]%Z]> (<["step" := [7]%Z]> ∅))
  = _load_shared_parameters Toy.shape Toy.from_numpy Toy.int_of
      (Toy.model (Toy.knobs true 3 2) [0; 0]%Z [0]%Z 0)
      (<["step" := [7]%Z]> ∅).
Proof.
  apply load_shared_parameters_ignores_other_keys.
  - intros Hempty. apply (f_equal (λ m, m !! "step")) in Hempty.
    vm_compute in Hempty. discriminate Hempty.
  - discriminate.
  - reflexivity.
Defined.

(** An instance: the bias and the step are imported, twice. *)
Lemma load_shared_parameters_idempotent_witness :
  let params : gmap string Toy.NdArray :=
    <["step" := [7]%Z]> (<["net:classifier.bias" := [5]%Z]> ∅) in
  let self' := Toy.model (Toy.knobs true 3 2) [0; 0]%Z [5]%Z 7 in
  _load_shared_parameters Toy.shape Toy.from_numpy Toy.int_of self' params
  = Ok self'.
Proof.
  cbn zeta.
  apply (load_shared_parameters_idempotent Toy.shape Toy.from_numpy
           Toy.int_of (Toy.model (Toy.knobs true 3 2) [0; 0]%Z [0]%Z 0)).
  vm_compute. reflexivity.
Defined.

End SerializerMoreExamples.

(** ** Trial configuration and the split of the training data *)

Section TrialConfigFacts.

Lemma is_final_get_trial_config (trial_no total_trials : Z)
    (running_trial_nos : list Z) :
  is_final_config (get_trial_config trial_no total_trials running_trial_nos)
  = (total_trials - 10 <? trial_no)%Z.
Proof.
  unfold get_trial_config, is_final_config.
  destruct (Z.ltb_spec (total_trials - trial_no) 10),
           (Z.ltb_spec (total_trials - 10) trial_no); cbn; (reflexivity || lia).
Qed.

Lemma filter_none {A : Type} (P : A -> Prop) `{!forall x, Decision (P x)}
    (l : list A) :
  Forall (λ x, ~ P x) l -> filter P l = [].
Proof.
  induction 1 as [|x l Hx _ IH]; [reflexivity|].
  now rewrite filter_cons_False.
Qed.

Lemma filter_all {A : Type} (P : A -> Prop) `{!forall x, Decision (P x)}
    (l : list A) :
  Forall P l -> filter P l = l.
Proof.
  induction 1 as [|x l Hx _ IH]; [reflexivity|].
  rewrite filter_cons_True by assumption. now rewrite IH.
Qed.

(** With the trials numbered from 1 to [total_trials], the trials that get
    the final configuration (300 epochs and no train-val samples as knob
    overrides, no shared parameters) are the last ten, or all of them when
    there are fewer; every trial before them gets the search
    configuration. *)
Theorem final_trials (total_trials : nat) (running_trial_nos : list Z) :
  filter (λ trial_no,
            is_final_config
              (get_trial_config trial_no (Z.of_nat total_trials)
                                running_trial_nos) = true)
         (map Z.of_nat (seq 1 total_trials))
  = map Z.of_nat (seq (1 + (total_trials - 10)) (min 10 total_trials))
  /\ Forall (λ trial_no,
               get_trial_config trial_no (Z.of_nat total_trials)
                                running_trial_nos = search_config)
            (map Z.of_nat (seq 1 (total_trials - 10))).
Proof.
  assert (Hsplit : seq 1 total_trials
                   = seq 1 (total_trials - 10)
                     ++ seq (1 + (total_trials - 10)) (min 10 total_trials)).
  { rewrite <- seq_app. f_equal. lia. }
  split.
  - rewrite Hsplit at 1. rewrite map_app, filter_app.
    rewrite filter_none, filter_all; [reflexivity | |].
    + apply Forall_forall. intros trial_no Hin.
      apply list_elem_of_In, in_map_iff in Hin as (n & <- & Hn).
      apply in_seq in Hn. rewrite is_final_get_trial_config.
      apply Z.ltb_lt. lia.
    + apply Forall_forall. intros trial_no Hin.
      apply list_elem_of_In, in_map_iff in Hin as (n & <- & Hn).
      apply in_seq in Hn. rewrite is_final_get_trial_config.
      intros Hlt. apply Z.ltb_lt in Hlt. lia.
  - apply Forall_forall. intros trial_no Hin.
    apply list_elem_of_In, in_map_iff in Hin as (n & <- & Hn).
    apply in_seq in Hn. unfold get_trial_config.
    destruct (Z.ltb_spec (Z.of_nat total_trials - Z.of_nat n) 10);
      [lia | reflexivity].
Qed.

(** What a final trial is given, and what any other trial is given. *)
Example trial_configs :
  TrialConfig.override_knobs (get_trial_config 95 100 [])
  = Some (<["max_train_val_samples" := 0%Z]>
            (<["max_trial_epochs" := 300%Z]> ∅))
  /\ TrialConfig.shared_params (get_trial_config 95 100 [])
     = Some TrialConfig.NONE
  /\ get_trial_config 90 100 [91; 92]%Z
     = {| TrialConfig.override_knobs := None;
          TrialConfig.shared_params := Some TrialConfig.LOCAL_BEST;
          TrialConfig.should_save := Some false |}.
Proof. repeat split. Qed.

End TrialConfigFacts.

Section DataFacts.

Import PyDenseNetBc PyDenseNetBcTrain.

Context {Image Class : Type}.
Context (channel_mean channel_std : list Image -> list Q).

#[local] Abbreviation load_train :=
  (_load_train_dataset channel_mean channel_std).

(** [l[:n] + l[n:]] is [l], for every integer [n]. *)
Lemma slice_to_from {A : Type} (l : list A) (n : Z) :
  slice_to l n ++ slice_from l n = l.
Proof. apply take_drop. Qed.

Lemma length_slice_to {A : Type} (l : list A) (n : Z) :
  (0 <= n)%Z ->
  Z.of_nat (length (slice_to l n)) = Z.min n (Z.of_nat (length l)).
Proof.
  intros Hn. unfold slice_to, slice_index.
  destruct (Z.ltb_spec n 0); [lia|]. rewrite length_take. lia.
Qed.

Lemma slice_from_nonempty {A : Type} (l : list A) (n : Z) :
  l <> [] -> (n < Z.of_nat (length l))%Z -> slice_from l n <> [].
Proof.
  intros Hl Hn Hnil. apply (f_equal length) in Hnil.
  assert (0 < length l)%nat by (destruct l; [congruence | cbn; lia]).
  unfold slice_from, slice_index in Hnil. rewrite length_drop in Hnil.
  change (length (@nil A)) with 0%nat in Hnil.
  destruct (Z.ltb_spec n 0); lia.
Qed.

Lemma zip_map_fst_snd {A B : Type} (l : list (A * B)) :
  zip (map fst l) (map snd l) = l.
Proof.
  induction l as [|[a b] l IH]; [reflexivity|]. cbn. now rewrite IH.
Qed.

Lemma samples_pairs (ds : ImageDataset Image Class) :
  map fst (samples ds) = zip (_images ds) (_classes ds).
Proof.
  unfold samples. rewrite map_map. cbn [fst]. apply map_id.
Qed.

(** [_load_train_dataset] splits and loses nothing.  It raises exactly when
    the dataset yields no sample.  Otherwise the train-val samples followed
    by the train samples are the samples of the dataset in their order,
    whatever [max_train_val_samples] is; the train dataset crops and flips,
    the train-val dataset does not; and both normalise with the statistics
    of the train images, which are also what the train parameters
    record. *)
Theorem load_train_dataset_split (knobs : Knobs)
    (dataset : ImageFilesDataset Image Class) :
  (items dataset = [] -> load_train knobs dataset = Raises ValueError)
  /\ (items dataset <> [] ->
      exists train_dataset train_val_dataset train_params,
        load_train knobs dataset
        = Returns (train_dataset, train_val_dataset, train_params)
        /\ map fst (samples train_val_dataset)
           ++ map fst (samples train_dataset) = items dataset
        /\ _transform train_dataset
           = {| crop_size := Some (image_size dataset);
                horizontal_flip := true;
                normalize_mean := channel_mean (_images train_dataset);
                normalize_std := channel_std (_images train_dataset) |}
        /\ _transform train_val_dataset
           = {| crop_size := None;
                horizontal_flip := false;
                normalize_mean := channel_mean (_images train_dataset);
                normalize_std := channel_std (_images train_dataset) |}
        /\ train_params
           = {| norm_mean := channel_mean (_images train_dataset);
                norm_std := channel_std (_images train_dataset);
                PyDenseNetBc.image_size := image_size dataset;
                N := size dataset;
                K := classes dataset |}).
Proof.
  unfold _load_train_dataset. split.
  - now intros ->.
  - intros Hne. destruct (items dataset) as [|item rest] eqn:Hitems;
      [congruence|]. cbn [unzip_pairs].
    eexists _, _, _. split; [reflexivity|].
    cbn [ImageDataset__init__ _images _classes _transform].
    split; [|repeat split].
    rewrite !samples_pairs. cbn [_images _classes].
    unfold slice_to, slice_from. rewrite !length_map.
    set (k := slice_index (length (item :: rest)) _).
    unfold ImageDataset__init__. cbn [_images _classes].
    rewrite <- zip_with_take, <- zip_with_drop, take_drop.
    apply zip_map_fst_snd.
Qed.

(** The sizes of the split, for a dataset whose [size] is the number of
    samples it yields.  The train dataset is never empty.  With a
    non-negative [max_train_val_samples] the train-val dataset holds
    [min(size // 5, max_train_val_samples)] samples, so at most a fifth of
    the data, and the train dataset holds the rest. *)
Theorem load_train_dataset_sizes (knobs : Knobs)
    (dataset : ImageFilesDataset Image Class)
    (train_dataset train_val_dataset : ImageDataset Image Class)
    (train_params : TrainParams) :
  size dataset = Z.of_nat (length (items dataset)) ->
  load_train knobs dataset
  = Returns (train_dataset, train_val_dataset, train_params) ->
  __len__ train_dataset <> 0%nat
  /\ ((0 <= max_train_val_samples knobs)%Z ->
      Z.of_nat (__len__ train_val_dataset)
      = Z.min (size dataset / 5) (max_train_val_samples knobs)
      /\ (5 * Z.of_nat (__len__ train_val_dataset) <= size dataset)%Z
      /\ Z.of_nat (__len__ train_dataset)
         = (size dataset - Z.of_nat (__len__ train_val_dataset))%Z).
Proof.
  intros Hsize. unfold _load_train_dataset.
  destruct (items dataset) as [|item rest] eqn:Hitems; [discriminate|].
  cbn [unzip_pairs].
  remember (map fst (item :: rest)) as l eqn:Hl.
  intros [= <- <- _].
  unfold __len__, ImageDataset__init__. cbn [_images].
  assert (Hlen : Z.of_nat (length l) = size dataset)
    by (subst l; now rewrite length_map, Hsize).
  assert (Hpos : (0 < size dataset)%Z) by (rewrite Hsize; cbn; lia).
  pose proof (Z.div_pos (size dataset) 5 ltac:(lia) ltac:(lia)) as Hq0.
  pose proof (Z.mul_div_le (size dataset) 5 ltac:(lia)) as Hq.
  pose proof (Z.div_lt (size dataset) 5 ltac:(lia) ltac:(lia)) as Hq1.
  split.
  - intros Hnil. apply length_zero_iff_nil in Hnil.
    revert Hnil. apply slice_from_nonempty.
    + rewrite Hl. discriminate.
    + lia.
  - intros Hmax. rewrite length_slice_to by lia.
    unfold slice_from, slice_index.
    destruct (Z.ltb_spec (Z.min (size dataset / 5)
                                (max_train_val_samples knobs)) 0); [lia|].
    rewrite length_drop. lia.
Qed.

End DataFacts.

Section DataExamples.

Import PyDenseNetBc PyDenseNetBcTrain.

(** An instance: six samples, at most 1024 train-val samples. *)
Lemma load_train_dataset_split_witness :
  let dataset :=
    {| size := 6; image_size := 32; classes := 10;
       items := [(10, 0); (11, 1); (12, 2); (13, 3); (14, 4); (15, 5)]%Z |} in
  exists train_dataset train_val_dataset train_params,
    _load_train_dataset (λ _, []) (λ _, []) (Toy.knobs true 3 2) dataset
    = Returns (train_dataset, train_val_dataset, train_params)
    /\ map fst (samples train_val_dataset)
       ++ map fst (samples train_dataset) = items dataset.
Proof.
  cbn zeta.
  destruct (load_train_dataset_split (λ _ : list Z, []) (λ _, [])
              (Toy.knobs true 3 2)
              {| size := 6; image_size := 32; classes := 10;
                 items := [(10, 0); (11, 1); (12, 2); (13, 3); (14, 4);
                           (15, 5)]%Z |}) as [_ H].
  destruct H as (tr & tv & tp & Hload & Hsplit & _); [discriminate|].
  now exists tr, tv, tp.
Defined.

(** An instance: six samples give one train-val sample and five train
    samples. *)
Lemma load_train_dataset_sizes_witness :
  let dataset :=
    {| size := 6; image_size := 32; classes := 10;
       items := [(10, 0); (11, 1); (12, 2); (13, 3); (14, 4); (15, 5)]%Z |} in
  exists train_dataset train_val_dataset train_params,
    _load_train_dataset (λ _, []) (λ _, []) (Toy.knobs true 3 2) dataset
    = Returns (train_dataset, train_val_dataset, train_params)
    /\ Z.of_nat (__len__ train_val_dataset) = 1%Z
    /\ Z.of_nat (__len__ train_dataset) = 5%Z.
Proof.
  cbn zeta. eexists _, _, _. split; [reflexivity|].
  match goal with
  | |- Z.of_nat (__len__ ?tv) = _ /\ Z.of_nat (__len__ ?tr) = _ =>
      destruct (load_train_dataset_sizes (λ _ : list Z, []) (λ _, [])
                  (Toy.knobs true 3 2)
                  {| size := 6; image_size := 32; classes := 10;
                     items := [(10, 0); (11, 1); (12, 2); (13, 3); (14, 4);
                               (15, 5)]%Z |}
                  tr tv _ eq_refl eq_refl) as [_ Hsizes]
  end.
  destruct Hsizes as (Htv & _ & Htr); [cbn; lia|].
  split; [exact Htv | exact Htr].
Defined.

End DataExamples.

(** ** PyDenseNetBc.train *)

Section TrainFacts.

Import PyDenseNetBc PyDenseNetBcTrain.

Context {Image Class Tensor NdArray Optim Batch : Type}.
Context (channel_mean channel_std : list Image -> list Q).
Context (shape : Tensor -> list nat).
Context (numpy : Tensor -> NdArray) (from_numpy : NdArray -> Tensor).
Context (asarray : Z -> NdArray) (int_of : NdArray -> option Z).
Context (DenseNet : Z -> Q -> gmap string Tensor).
Context (_get_optimizer : Knobs -> gmap string Tensor -> Z -> Optim).
Context (scheduler_step : Optim -> Optim).
Context (DataLoader :
           list (Image * Class * Transform) -> Z -> bool -> Z -> list Batch).
Context (train_batch : gmap string Tensor -> Optim -> Batch ->
                       gmap string Tensor * Optim * float * float).
Context (train_val_batch : gmap string Tensor -> Batch ->
                           gmap string Tensor * float * float).
Context (cuda_is_available : bool).

#[local] Abbreviation load_train :=
  (_load_train_dataset channel_mean channel_std).
#[local] Abbreviation train_ :=
  (train channel_mean channel_std shape from_numpy int_of DenseNet
         _get_optimizer scheduler_step DataLoader train_batch
         train_val_batch cuda_is_available).

(** An import never touches the knobs. *)
Lemma load_shared_parameters_knobs (self self' : t Tensor)
    (params : gmap string NdArray) :
  _load_shared_parameters shape from_numpy int_of self params = Ok self' ->
  _knobs self' = _knobs self.
Proof.
  unfold _load_shared_parameters.
  destruct (_ =? 0)%nat; [now intros [= <-]|].
  destruct (load_state_dict _ _ _ _) as [net'|]; [|discriminate].
  destruct (params !! "step") as [array|]; [|discriminate].
  destruct (int_of array); [|discriminate]. now intros [= <-].
Qed.

(** [train] without train-val samples.  When
    [min(size // 5, max_train_val_samples)] is 0, as it is under the
    override [max_train_val_samples = 0] of a final trial and for a dataset
    of fewer than five samples, the loop runs every configured epoch and
    never validates or checks for an early stop. *)
Theorem train_without_train_val (knobs : Knobs)
    (dataset : ImageFilesDataset Image Class)
    (shared_params : gmap string NdArray) (self' : t Tensor)
    (log : list event) :
  Z.min (size dataset / 5) (max_train_val_samples knobs) = 0%Z ->
  train_ knobs dataset shared_params = Returns (self', log) ->
  epochs_run log = range (max_trial_epochs knobs)
  /\ Forall (λ ev, is_train_val_event ev = false) log.
Proof.
  intros Hmin. unfold train, _load_train_dataset.
  destruct (unzip_pairs (items dataset)) as [[images image_classes]|e];
    [|discriminate].
  rewrite Hmin.
  assert (Hempty :
            samples (ImageDataset__init__
                       (slice_to images 0) (slice_to image_classes 0)
                       (image_size dataset)
                       (channel_mean (slice_from images 0))
                       (channel_std (slice_from images 0)) false) = []).
  { unfold samples, ImageDataset__init__, slice_to, slice_index.
    cbn [_images _classes Z.ltb Z.compare].
    replace (Z.to_nat (Z.min 0 (Z.of_nat (length images)))) with 0%nat
      by lia.
    reflexivity. }
  rewrite Hempty.
  destruct (_load_shared_parameters _ _ _ _ _) as [self|e] eqn:Hshared;
    [|discriminate].
  apply load_shared_parameters_knobs in Hshared. cbn [_knobs] in Hshared.
  intros [= Htrain].
  pose proof (train_model_no_train_val _get_optimizer scheduler_step
                DataLoader train_batch train_val_batch cuda_is_available
                self
                (samples (ImageDataset__init__
                            (slice_from images 0)
                            (slice_from image_classes 0)
                            (image_size dataset)
                            (channel_mean (slice_from images 0))
                            (channel_std (slice_from images 0)) true)))
    as Hrun.
  cbn zeta in Hrun. rewrite Htrain in Hrun. cbn [snd] in Hrun.
  now rewrite Hshared in Hrun.
Qed.

(** The import of an exported mapping into a model of the same
    architecture, with the object it yields. *)
Lemma import_of_export (prev other : t Tensor)
    (params : gmap string NdArray) :
  (forall x, from_numpy (numpy x) = x) ->
  (forall z, int_of (asarray z) = Some z) ->
  get_shared_parameters numpy asarray prev = Some params ->
  dom (net (_model other)) = dom (net (_model prev)) ->
  shapes_agree shape (net (_model other)) (net (_model prev)) ->
  _load_shared_parameters shape from_numpy int_of other params
  = Ok {| _knobs := _knobs other; _train_params := _train_params other;
          _model := {| net := net (_model prev);
                       step := step (_model prev) |} |}.
Proof.
  intros Hnumpy Hint Hget Hdom Hshape.
  destruct (get_shared_parameters_lookup numpy asarray prev params Hget)
    as (Hstep & Hnet & _).
  assert (Hextract : extract_params from_numpy params "net"
                     = net (_model prev)).
  { apply map_eq. intros name.
    rewrite lookup_extract_params, Hnet.
    destruct (net (_model prev) !! name); cbn; [|reflexivity].
    now rewrite Hnumpy. }
  rewrite (load_shared_parameters_ok shape from_numpy int_of other params
             _ _ Hstep (Hint _)).
  - rewrite Hextract. do 3 f_equal.
    apply map_eq. intros name. rewrite lookup_copy.
    destruct (net (_model other) !! name) as [p|] eqn:Hp.
    + assert (is_Some (net (_model prev) !! name)) as [x Hx].
      { apply elem_of_dom. rewrite <- Hdom. apply elem_of_dom.
        now exists p. }
      now rewrite Hx.
    + symmetry. apply not_elem_of_dom. rewrite <- Hdom.
      now apply not_elem_of_dom.
  - intros name p a' Hp Ha. rewrite Hnet in Ha.
    destruct (net (_model prev) !! name) as [x|] eqn:Hx; [|discriminate].
    injection Ha as <-. rewrite Hnumpy. eapply Hshape; eassumption.
Qed.


End TrainFacts.

(** *** [train] on the small instance *)

Section TrainExamples.

Import PyDenseNetBc PyDenseNetBcTrain.

(** An instance: three samples, so no train-val sample; four epochs. *)
Lemma train_without_train_val_witness :
  let dataset :=
    {| size := 3; image_size := 32; classes := 10;
       items := [(10, 0); (11, 1); (12, 2)]%Z |} in
  exists self' log,
    train (λ _, []) (λ _, []) Toy.shape Toy.from_numpy Toy.int_of
          Toy.DenseNet (λ _ _ _, tt) (λ o : unit, o)
          (λ ds _ _ _, map (λ _, 1%float) ds)
          Toy.train_batch Toy.train_val_batch false
          (Toy.knobs true 4 2) dataset ∅
    = Returns (self', log)
    /\ epochs_run log = [0; 1; 2; 3]%Z.
Proof.
  cbn zeta.
  destruct (train (λ _ : list Z, []) (λ _, []) Toy.shape Toy.from_numpy
                  Toy.int_of Toy.DenseNet (λ _ _ _, tt) (λ o : unit, o)
                  (λ (ds : list (Z * Z * Transform)) _ _ _,
                     map (λ _, 1%float) ds)
                  Toy.train_batch Toy.train_val_batch false
                  (Toy.knobs true 4 2)
                  {| size := 3; image_size := 32; classes := 10;
                     items := [(10, 0); (11, 1); (12, 2)]%Z |} ∅)
    as [[self' log]|e] eqn:Htrain;
    [|vm_compute in Htrain; discriminate Htrain].
  exists self', log. split; [reflexivity|].
  eapply train_without_train_val in Htrain as [Hrun _];
    [exact Hrun | reflexivity].
Defined.


End TrainExamples.

(** ** PyDenseNetBc: save and reload *)

Section FilesFacts.

Import PyDenseNetBc.

Context {Tensor Content : Type}.
Context (shape : Tensor -> list nat).
Context (DenseNet : Z -> Q -> gmap string Tensor).
Context (torch_save : gmap string Tensor -> Content).
Context (torch_load : Content -> option (gmap string Tensor)).
Context (write_json : TrainParams -> Content).
Context (read_json : Content -> option TrainParams).

#[local] Abbreviation save :=
  (PyDenseNetBcFiles.save_parameters torch_save write_json).
#[local] Abbreviation load :=
  (PyDenseNetBcFiles.load_parameters shape DenseNet torch_load read_json).

(** Two names in one directory are two paths. *)
Lemma path_join_inj (a b c : string) :
  path_join a b = path_join a c -> b = c.
Proof.
  unfold path_join. destruct a as [|x a]; [easy|].
  destruct (last_char (String x a)) as [ch|].
  - destruct (Ascii.eqb_spec ch "/") as [->|Hne].
    + apply (inj (String.app _)).
    + assert (Hsame :
                forall d : string,
                  match ch with
                  | "/"%char => String x a +:+ d
                  | _ => String x a +:+ "/" +:+ d
                  end = String x a +:+ "/" +:+ d).
      { intros d.
        destruct ch as [[] [] [] [] [] [] [] []]; try reflexivity.
        now contradict Hne. }
      rewrite !Hsame. intros Heq.
      apply (inj (String.app _)) in Heq. now injection Heq.
  - intros Heq. apply (inj (String.app _)) in Heq. now injection Heq.
Qed.

(** Saving and reloading.  [load_parameters] on the files that
    [save_parameters] wrote gives back the net's weights and the train
    parameters, provided the net that [_build_model] builds for them has the
    names and shapes of the saved one.  The step counter is not saved: after
    the reload it is 0.  No file other than [model.pt] and
    [train_params.json] of the directory is touched. *)
Theorem save_load_parameters (self : t Tensor) (knobs : Knobs)
    (files : gmap string Content) (params_dir : string) :
  (forall state_dict, torch_load (torch_save state_dict) = Some state_dict) ->
  (forall train_params, read_json (write_json train_params)
                        = Some train_params) ->
  dom (net (_model self))
  = dom (DenseNet (K (_train_params self)) (drop_rate knobs)) ->
  shapes_agree shape (DenseNet (K (_train_params self)) (drop_rate knobs))
               (net (_model self)) ->
  load knobs (save self files params_dir) params_dir
  = Returns {| _knobs := knobs; _train_params := _train_params self;
               _model := {| net := net (_model self); step := 0 |} |}
  /\ forall path,
       path <> path_join params_dir "model.pt" ->
       path <> path_join params_dir "train_params.json" ->
       save self files params_dir !! path = files !! path.
Proof.
  intros Htorch Hjson Hdom Hshape. split.
  - unfold PyDenseNetBcFiles.load_parameters,
      PyDenseNetBcFiles.save_parameters.
    rewrite lookup_insert_eq, Hjson.
    rewrite lookup_insert_ne, lookup_insert_eq, Htorch.
    + unfold load_parameters. cbn [_build_model net step].
      now rewrite load_state_dict_strict_ok.
    + intros Heq. apply path_join_inj in Heq. discriminate Heq.
  - intros path Hmodel Hjsonp.
    unfold PyDenseNetBcFiles.save_parameters.
    now rewrite !lookup_insert_ne by congruence.
Qed.

End FilesFacts.

(** ** TfVgg16: dump and load *)

Section TfVgg16Facts.

Import TfVgg16.

Context {KerasModel Bytes Stats : Type}.
Context (save_h5 : KerasModel -> Bytes).
Context (load_h5 : Bytes -> option KerasModel).
Context (b64encode : Bytes -> string).
Context (b64decode : string -> option Bytes).
Context (json_dumps : Stats -> string).
Context (json_loads : string -> option Stats).

#[local] Abbreviation dump :=
  (dump_parameters save_h5 b64encode json_dumps).
#[local] Abbreviation load :=
  (load_parameters load_h5 b64decode json_loads).

(** Dumping and loading.  Whatever [dump_parameters] returns for an object,
    [load_parameters] turns any object into that object, without
    raising. *)
Theorem dump_load_parameters (self other : t KerasModel Stats)
    (params : gmap string value) :
  (forall b, b64decode (b64encode b) = Some b) ->
  (forall model, load_h5 (save_h5 model) = Some model) ->
  (forall l, json_loads (json_dumps l) = Some l) ->
  dump self = Returns params ->
  load other params = (self, None).
Proof.
  intros Hb64 Hh5 Hjson. unfold dump_parameters.
  destruct self as [[model|] [image_size|] [mean|] [std|]];
    cbn [_model _image_size _normalize_mean _normalize_std];
    try discriminate.
  intros [= <-]. unfold load_parameters, loads_entry.
  rewrite !lookup_insert_ne by discriminate.
  rewrite lookup_insert_eq, Hb64, Hh5.
  rewrite lookup_insert_ne by discriminate.
  rewrite lookup_insert_ne by discriminate.
  rewrite lookup_insert_eq.
  rewrite lookup_insert_ne by discriminate.
  rewrite lookup_insert_eq, Hjson.
  now rewrite lookup_insert_eq, Hjson.
Qed.

(** [load_parameters] is not atomic.  When the model entry is well formed
    and ['image_size'] is missing, the call raises [KeyError] with the model
    already replaced; when ['image_size'] is there and ['normalize_mean'] is
    missing, it raises with model and image size replaced.  A missing model
    entry raises before anything is assigned. *)
Theorem load_parameters_partial (self : t KerasModel Stats)
    (params : gmap string value) :
  (params !! "h5_model_base64" = None ->
   load self params = (self, Some (Reraise KeyError)))
  /\ (forall s b model,
         params !! "h5_model_base64" = Some (Str s) ->
         b64decode s = Some b -> load_h5 b = Some model ->
         (params !! "image_size" = None ->
          load self params
          = ({| _model := Some model;
                _image_size := _image_size self;
                _normalize_mean := _normalize_mean self;
                _normalize_std := _normalize_std self |},
             Some (Reraise KeyError)))
         /\ (forall image_size,
                params !! "image_size" = Some image_size ->
                params !! "normalize_mean" = None ->
                load self params
                = ({| _model := Some model;
                      _image_size := Some image_size;
                      _normalize_mean := _normalize_mean self;
                      _normalize_std := _normalize_std self |},
                   Some (Reraise KeyError)))).
Proof.
  split.
  - intros Hnone. unfold load_parameters. now rewrite Hnone.
  - intros s b model Hs Hb Hm. split.
    + intros Hnone. unfold load_parameters.
      now rewrite Hs, Hb, Hm, Hnone.
    + intros image_size Hsize Hnone. unfold load_parameters, loads_entry.
      now rewrite Hs, Hb, Hm, Hsize, Hnone.
Qed.

End TfVgg16Facts.

(** *** Saving and dumping on small instances *)

Section FilesExamples.

Import PyDenseNetBc.

(** An instance: a file holds either a state dict or train parameters.  A
    model at step 7 is saved into an empty directory and reloaded under
    other knobs: the weights are back, the step is 0. *)
Lemma save_load_parameters_witness :
  let torch_load (c : gmap string Toy.Tensor + TrainParams) :=
    match c with inl state_dict => Some state_dict | inr _ => None end in
  let read_json (c : gmap string Toy.Tensor + TrainParams) :=
    match c with inr train_params => Some train_params | inl _ => None end in
  PyDenseNetBcFiles.load_parameters Toy.shape Toy.DenseNet torch_load
    read_json (Toy.knobs false 5 1)
    (PyDenseNetBcFiles.save_parameters inl inr
       (Toy.model (Toy.knobs true 3 2) [1; 2]%Z [3]%Z 7) ∅ "params")
    "params"
  = Returns (Toy.model (Toy.knobs false 5 1) [1; 2]%Z [3]%Z 0).
Proof.
  cbn zeta.
  apply (save_load_parameters Toy.shape Toy.DenseNet inl
           (λ c : gmap string Toy.Tensor + TrainParams,
              match c with inl state_dict => Some state_dict | inr _ => None
              end)
           inr
           (λ c : gmap string Toy.Tensor + TrainParams,
              match c with inr train_params => Some train_params
                      | inl _ => None end)
           (Toy.model (Toy.knobs true 3 2) [1; 2]%Z [3]%Z 7)
           (Toy.knobs false 5 1) ∅ "params").
  - reflexivity.
  - reflexivity.
  - vm_compute. reflexivity.
  - apply (toy_shapes_agree [0; 0]%Z [1; 2]%Z [0]%Z [3]%Z 0 7
             (Toy.knobs false 5 1) (Toy.knobs true 3 2)); reflexivity.
Defined.

End FilesExamples.

Section TfVgg16Examples.

Import TfVgg16.

(** An instance: models, bytes and statistics are strings, every codec is
    the identity. *)
Lemma dump_load_parameters_witness :
  let self :=
    {| _model := Some "vgg"; _image_size := Some (Int 32);
       _normalize_mean := Some "[0.5]"; _normalize_std := Some "[0.25]" |} in
  let fresh : t string string :=
    {| _model := None; _image_size := None;
       _normalize_mean := None; _normalize_std := None |} in
  exists params,
    dump_parameters (λ m, m) (λ b, b) (λ l, l) self = Returns params
    /\ load_parameters Some Some Some fresh params = (self, None).
Proof.
  cbn zeta. eexists. split; [reflexivity|].
  apply (dump_load_parameters (λ m : string, m) Some (λ b : string, b) Some
           (λ l : string, l) Some); reflexivity.
Defined.

(** An instance: a mapping with the model entry only. *)
Lemma load_parameters_partial_witness :
  let fresh : t string string :=
    {| _model := None; _image_size := None;
       _normalize_mean := None; _normalize_std := None |} in
  load_parameters Some Some Some fresh (<["h5_model_base64" := Str "vgg"]> ∅)
  = ({| _model := Some "vgg"; _image_size := None;
        _normalize_mean := None; _normalize_std := None |},
     Some (Reraise KeyError)).
Proof.
  cbn zeta.
  destruct (load_parameters_partial
              (Bytes:=string) Some Some Some
              {| _model := None; _image_size := None;
                 _normalize_mean := @None string; _normalize_std := None |}
              (<["h5_model_base64" := Str "vgg"]> ∅)) as [_ H].
  destruct (H "vgg" "vgg" "vgg" eq_refl eq_refl eq_refl) as [Hmissing _].
  exact (Hmissing eq_refl).
Defined.

End TfVgg16Examples.

(** ** DenseNet-BC: shapes *)

Section DenseNetFacts.

Import DenseNetBc.

Lemma window_out_same (size : Z) :
  (1 <= size)%Z ->
  window_out size 1 1 0 = Some size /\ window_out size 3 1 1 = Some size.
Proof.
  intros Hsize. unfold window_out.
  destruct (Z.leb_spec 1 (size + 2 * 0)); [|lia].
  destruct (Z.leb_spec 3 (size + 2 * 1)); [|lia].
  rewrite !Z.div_1_r. split; f_equal; lia.
Qed.

Lemma window_out_half (size : Z) :
  (2 <= size)%Z -> window_out size 2 2 0 = Some (size / 2)%Z.
Proof.
  intros Hsize. unfold window_out.
  destruct (Z.leb_spec 2 (size + 2 * 0)); [|lia].
  f_equal. replace (size + 2 * 0 - 2)%Z with (size + (-1) * 2)%Z by lia.
  rewrite Z.div_add by lia. lia.
Qed.

(** Appending one more feature map of the same height and width. *)
Lemma cat_snoc (features : list Shape) (c g h w : Z) :
  cat features = Some (c, h, w) ->
  cat (features ++ [(g, h, w)]) = Some (c + g, h, w)%Z.
Proof.
  revert c. induction features as [|[[c0 h0] w0] features IH]; intros c;
    [discriminate|].
  destruct features as [|x features].
  - cbn. intros [= -> -> ->]. now rewrite !Z.eqb_refl.
  - change (cat ((c0, h0, w0) :: x :: features))
      with (match cat (x :: features) with
            | Some (c', h', w') =>
                if (h0 =? h')%Z && (w0 =? w')%Z
                then Some (c0 + c', h0, w0)%Z else None
            | None => None
            end).
    change (cat (((c0, h0, w0) :: x :: features) ++ [(g, h, w)]))
      with (match cat ((x :: features) ++ [(g, h, w)]) with
            | Some (c', h', w') =>
                if (h0 =? h')%Z && (w0 =? w')%Z
                then Some (c0 + c', h0, w0)%Z else None
            | None => None
            end).
    destruct (cat (x :: features)) as [[[c' h'] w']|] eqn:Hcat;
      [|discriminate].
    destruct (Z.eqb_spec h0 h'), (Z.eqb_spec w0 w'); cbn [andb];
      try discriminate.
    intros [= <- <- <-]. subst h' w'.
    rewrite (IH c' eq_refl), !Z.eqb_refl. cbn [andb]. f_equal. f_equal.
    f_equal. lia.
Qed.

(** A dense layer built for the channels it is given returns
    [growth_rate] channels of the same height and width. *)
Lemma dense_layer_forward (features : list Shape)
    (num_input_features growth_rate bn_size h w : Z) (drop_rate : Q)
    (efficient : bool) :
  (1 <= h)%Z -> (1 <= w)%Z ->
  cat features = Some (num_input_features, h, w) ->
  _DenseLayer_forward
    (_DenseLayer__init__ num_input_features growth_rate bn_size drop_rate
                         efficient) features
  = Some (growth_rate, h, w).
Proof.
  intros Hh Hw Hcat. unfold _DenseLayer_forward, _DenseLayer__init__.
  rewrite Hcat.
  cbn [norm1 relu1 conv1 norm2 relu2 conv2 Layer_forward].
  destruct (window_out_same h Hh) as [Hh1 Hh3].
  destruct (window_out_same w Hw) as [Hw1 Hw3].
  do 6 (rewrite ?Z.eqb_refl, ?Hh1, ?Hw1, ?Hh3, ?Hw3; cbn [Layer_forward]).
  reflexivity.
Qed.

(** The loop of a dense block from its [k]-th layer on. *)
Lemma dense_block_loop (n k : nat) (features : list Shape)
    (num_input_features growth_rate bn_size h w : Z) (drop_rate : Q)
    (efficient : bool) :
  (1 <= h)%Z -> (1 <= w)%Z ->
  cat features
  = Some (num_input_features + Z.of_nat k * growth_rate, h, w)%Z ->
  exists features',
    _DenseBlock_loop
      (map (λ i,
              ("denselayer" +:+ pretty (i + 1)%Z,
               _DenseLayer__init__ (num_input_features + i * growth_rate)
                                   growth_rate bn_size drop_rate efficient))
           (map Z.of_nat (seq k n))) features
    = Some features'
    /\ cat features'
       = Some (num_input_features + Z.of_nat (k + n) * growth_rate, h, w)%Z.
Proof.
  intros Hh Hw. revert k features.
  induction n as [|n IH]; intros k features Hcat.
  - exists features. split; [reflexivity|]. now rewrite Nat.add_0_r.
  - cbn [seq map _DenseBlock_loop].
    rewrite (dense_layer_forward features _ growth_rate bn_size h w
               drop_rate efficient Hh Hw Hcat).
    destruct (IH (S k) (features ++ [(growth_rate, h, w)])) as (f' & Hl & Hc).
    + rewrite (cat_snoc _ _ _ _ _ Hcat). do 3 f_equal. lia.
    + exists f'. split; [exact Hl|]. rewrite Hc. do 3 f_equal. lia.
Qed.



Lemma Sequential_forward_app {A : Type}
    (fwd : A -> Shape -> option Shape) (l1 l2 : list (string * A))
    (x : Shape) :
  Sequential_forward fwd (l1 ++ l2) x
  = match Sequential_forward fwd l1 x with
    | Some y => Sequential_forward fwd l2 y
    | None => None
    end.
Proof.
  revert x. induction l1 as [|[name child] l1 IH]; intros x; [reflexivity|].
  cbn [app Sequential_forward]. destruct (fwd child x); [apply IH|reflexivity].
Qed.

(** A dense block as a child of [features]. *)
Lemma block_feature_forward
    (num_layers num_input_features bn_size growth_rate h w : Z)
    (drop_rate : Q) (efficient : bool) :
  (0 <= num_layers)%Z -> (1 <= h)%Z -> (1 <= w)%Z ->
  Feature_forward
    (FBlock (_DenseBlock num_layers num_input_features bn_size growth_rate
                         drop_rate efficient))
    (num_input_features, h, w)
  = Some (num_input_features + num_layers * growth_rate, h, w)%Z.
Proof.
  intros Hn Hh Hw.
  unfold Feature_forward, _DenseBlock_forward, _DenseBlock, range.
  destruct (dense_block_loop (Z.to_nat num_layers) 0
              [(num_input_features, h, w)] num_input_features growth_rate
              bn_size h w drop_rate efficient Hh Hw) as (f' & Hl & Hc).
  - cbn. do 3 f_equal. lia.
  - unfold Shape in *. rewrite Hl, Hc.
    now rewrite Nat.add_0_l, Z2Nat.id by lia.
Qed.

(** A transition halves height and width. *)
Lemma transition_forward (num_input_features num_output_features h w : Z) :
  (2 <= h)%Z -> (2 <= w)%Z ->
  Feature_forward
    (FTransition (_Transition num_input_features num_output_features))
    (num_input_features, h, w)
  = Some (num_output_features, h / 2, w / 2)%Z.
Proof.
  intros Hh Hw. unfold Feature_forward, _Transition.
  destruct (window_out_same h ltac:(lia)) as [Hh1 _].
  destruct (window_out_same w ltac:(lia)) as [Hw1 _].
  cbn [Sequential_forward Layer_forward].
  rewrite !Z.eqb_refl. cbn [Sequential_forward Layer_forward].
  rewrite !Z.eqb_refl, Hh1, Hw1. cbn [Sequential_forward Layer_forward].
  now rewrite (window_out_half h Hh), (window_out_half w Hw).
Qed.

Lemma halvings_S (n : nat) (size : Z) :
  halvings (S n) size = halvings n (size / 2).
Proof. unfold halvings. now rewrite Nat.iter_succ_r. Qed.

Lemma halvings_pos (n : nat) (size : Z) :
  (1 <= halvings n size)%Z -> (1 <= size)%Z.
Proof.
  revert size. induction n as [|n IH]; intros size; [easy|].
  rewrite halvings_S. intros H. apply IH in H.
  destruct (Z.le_gt_cases 1 size) as [|Hlt]; [assumption|].
  assert (size / 2 <= 0)%Z; [|lia].
  destruct (Z.le_gt_cases 0 size).
  - rewrite Z.div_small by lia. lia.
  - apply Z.lt_le_incl, Z.div_lt_upper_bound; lia.
Qed.

Lemma halvings_S_ge (n : nat) (size : Z) :
  (1 <= halvings (S n) size)%Z -> (2 <= size)%Z.
Proof.
  rewrite halvings_S. intros H. apply halvings_pos in H.
  destruct (Z.le_gt_cases 2 size) as [|Hlt]; [assumption|].
  assert (size / 2 < 1)%Z; [|lia].
  apply Z.div_lt_upper_bound; lia.
Qed.

(** The children that the loop over [block_config] adds let a shape
    through: when the children so far return [num_features] channels, the
    children afterwards return the final [num_features], at the height and
    width halved once per transition. *)
Lemma add_blocks_forward (growth_rate : Z) (compression : float)
    (bn_size : Z) (drop_rate : Q) (efficient : bool) (len : Z)
    (block_config : list Z) :
  forall (i : Z) (children : list (string * Feature)) (num_features : Z)
         (x : Shape) (h w : Z) (children' : list (string * Feature))
         (num_features' : Z),
    add_blocks growth_rate compression bn_size drop_rate efficient len i
               block_config children num_features
    = Returns (children', num_features') ->
    Forall (λ num_layers, 0 <= num_layers)%Z block_config ->
    (i + Z.of_nat (length block_config))%Z = len ->
    Sequential_forward Feature_forward children x
    = Some (num_features, h, w) ->
    (1 <= halvings (length block_config - 1) h)%Z ->
    (1 <= halvings (length block_config - 1) w)%Z ->
    Sequential_forward Feature_forward children' x
    = Some (num_features',
            halvings (length block_config - 1) h,
            halvings (length block_config - 1) w).
Proof.
  induction block_config as [|num_layers rest IH];
    intros i children num_features x h w children' num_features'
           Hadd Hall Hlen Hfwd Hh Hw.
  - cbn [add_blocks] in Hadd. injection Hadd as <- <-. exact Hfwd.
  - inversion Hall as [|? ? Hn Hrest]; subst.
    cbn [length] in *. rewrite Nat.sub_succ, Nat.sub_0_r in *.
    cbn [add_blocks] in Hadd.
    set (children1 :=
           children
           ++ [("denseblock" +:+ pretty (i + 1)%Z,
                FBlock (_DenseBlock num_layers num_features bn_size
                                    growth_rate drop_rate efficient))])
      in *.
    assert (H1 : Sequential_forward Feature_forward children1 x
                 = Some (num_features + num_layers * growth_rate, h, w)%Z).
    { subst children1. rewrite Sequential_forward_app, Hfwd.
      cbn [Sequential_forward].
      rewrite block_feature_forward;
        [reflexivity | assumption | eapply halvings_pos, Hh
        | eapply halvings_pos, Hw]. }
    destruct (Z.eqb_spec i (i + Z.of_nat (S (length rest)) - 1)) as [Hi|Hi];
      cbn [negb] in Hadd.
    + assert (rest = []) as ->
          by (destruct rest; [reflexivity | cbn in Hi; lia]).
      cbn [add_blocks] in Hadd. injection Hadd as <- <-. exact H1.
    + destruct (int_mul_float _ compression) as [product|]; [|discriminate].
      destruct (int_of_float product) as [num_output_features|];
        [|discriminate].
      destruct rest as [|num_layers' rest']; [cbn in Hi; lia|].
      set (rest := num_layers' :: rest') in *.
      assert (Hr : length rest = S (length rest - 1)) by (subst rest; cbn; lia).
      rewrite Hr in Hh, Hw.
      rewrite (IH (i + 1)%Z _ _ x (h / 2)%Z (w / 2)%Z _ _ Hadd Hrest).
      * rewrite <- !halvings_S, <- Hr. reflexivity.
      * lia.
      * rewrite Sequential_forward_app, H1. cbn [Sequential_forward].
        rewrite transition_forward;
          [reflexivity | eapply halvings_S_ge, Hh | eapply halvings_S_ge, Hw].
      * now rewrite <- halvings_S.
      * now rewrite <- halvings_S.
Qed.



(** *** Names of the modules

    [add_module] with a name already in use would replace the module of
    that name.  It never does: the children are a list, as modelled. *)

Lemma dense_block_names
    (num_layers num_input_features bn_size growth_rate : Z) (drop_rate : Q)
    (efficient : bool) :
  NoDup (map fst (_DenseBlock num_layers num_input_features bn_size
                              growth_rate drop_rate efficient)).
Proof.
  unfold _DenseBlock, range. rewrite !map_map. cbn [fst].
  change (NoDup ((λ i : nat, "denselayer" +:+ pretty (Z.of_nat i + 1)%Z)
                 <$> seq 0 (Z.to_nat num_layers))).
  apply NoDup_fmap_2_strong; [|apply NoDup_seq].
  intros i j _ _ H.
  apply (inj (String.app _)) in H. apply (inj pretty) in H. lia.
Qed.

Lemma NoDup_app_singleton {A : Type} (l : list A) (y : A) :
  NoDup l -> y ∉ l -> NoDup (l ++ [y]).
Proof.
  intros Hl Hy. apply NoDup_app. split; [exact Hl|].
  split; [|apply NoDup_singleton].
  intros x Hx Hxy. apply list_elem_of_singleton in Hxy. now subst.
Qed.

Lemma add_blocks_names (growth_rate : Z) (compression : float)
    (bn_size : Z) (drop_rate : Q) (efficient : bool) (len : Z)
    (block_config : list Z) :
  forall (i : Z) (children : list (string * Feature)) (num_features : Z)
         (children' : list (string * Feature)) (num_features' : Z),
    add_blocks growth_rate compression bn_size drop_rate efficient len i
               block_config children num_features
    = Returns (children', num_features') ->
    NoDup (map fst children) ->
    "norm_final" ∉ map fst children ->
    (forall j, (i <= j)%Z ->
               ("denseblock" +:+ pretty (j + 1)%Z ∉ map fst children)
               /\ ("transition" +:+ pretty (j + 1)%Z ∉ map fst children)) ->
    NoDup (map fst children') /\ "norm_final" ∉ map fst children'.
Proof.
  induction block_config as [|num_layers rest IH];
    intros i children num_features children' num_features' Hadd Hnodup
           Hfinal Hfresh.
  { cbn [add_blocks] in Hadd. injection Hadd as <- <-. now split. }
  destruct (Hfresh i ltac:(lia)) as [Hblock Htrans].
  cbn [add_blocks] in Hadd. destruct (negb _).
  - destruct (int_mul_float _ compression) as [product|]; [|discriminate].
    destruct (int_of_float product) as [num_output_features|];
      [|discriminate].
    apply (IH _ _ _ _ _ Hadd).
    + rewrite !map_app. cbn [map fst].
      apply NoDup_app_singleton; [now apply NoDup_app_singleton|].
      rewrite not_elem_of_app, list_elem_of_singleton.
      split; [exact Htrans | discriminate].
    + rewrite !map_app. cbn [map fst].
      rewrite !not_elem_of_app, !list_elem_of_singleton.
      repeat split; [exact Hfinal | discriminate..].
    + intros j Hj. destruct (Hfresh j ltac:(lia)) as [Hb Ht].
      rewrite !map_app. cbn [map fst].
      rewrite !not_elem_of_app, !list_elem_of_singleton.
      repeat split; try assumption; try discriminate;
        intros Heq; apply (inj (String.app _)) in Heq;
        apply (inj pretty) in Heq; lia.
  - apply (IH _ _ _ _ _ Hadd).
    + rewrite !map_app. cbn [map fst]. now apply NoDup_app_singleton.
    + rewrite !map_app. cbn [map fst].
      rewrite !not_elem_of_app, !list_elem_of_singleton.
      split; [exact Hfinal | discriminate].
    + intros j Hj. destruct (Hfresh j ltac:(lia)) as [Hb Ht].
      rewrite !map_app. cbn [map fst].
      rewrite !not_elem_of_app, !list_elem_of_singleton.
      repeat split; try assumption; try discriminate;
        intros Heq; apply (inj (String.app _)) in Heq;
        apply (inj pretty) in Heq; lia.
Qed.

Lemma add_blocks_blocks (growth_rate : Z) (compression : float)
    (bn_size : Z) (drop_rate : Q) (efficient : bool) (len : Z)
    (block_config : list Z) :
  forall (i : Z) (children : list (string * Feature)) (num_features : Z)
         (children' : list (string * Feature)) (num_features' : Z),
    add_blocks growth_rate compression bn_size drop_rate efficient len i
               block_config children num_features
    = Returns (children', num_features') ->
    (forall name block,
        (name, FBlock block) ∈ children -> NoDup (map fst block)) ->
    forall name block,
      (name, FBlock block) ∈ children' -> NoDup (map fst block).
Proof.
  induction block_config as [|num_layers rest IH];
    intros i children num_features children' num_features' Hadd Hchildren.
  { cbn [add_blocks] in Hadd. injection Hadd as <- <-. exact Hchildren. }
  cbn [add_blocks] in Hadd. destruct (negb _).
  - destruct (int_mul_float _ compression) as [product|]; [|discriminate].
    destruct (int_of_float product) as [num_output_features|];
      [|discriminate].
    apply (IH _ _ _ _ _ Hadd). intros name block.
    rewrite !elem_of_app, !list_elem_of_singleton.
    intros Hin; destruct_or?; simplify_eq; eauto using dense_block_names.
  - apply (IH _ _ _ _ _ Hadd). intros name block.
    rewrite !elem_of_app, !list_elem_of_singleton.
    intros Hin; destruct_or?; simplify_eq; eauto using dense_block_names.
Qed.

(** No two children of [features] have the same name, and no two layers
    of a dense block: every [add_module] call of [DenseNet.__init__],
    [_DenseBlock.__init__] adds a module and replaces none, for every
    configuration of the network, for small inputs or not. *)
Theorem module_names_distinct (growth_rate : Z) (block_config : list Z)
    (compression : float) (num_init_features bn_size : Z) (drop_rate : Q)
    (num_classes : Z) (small_inputs efficient : bool) (model : t) :
  __init__ growth_rate block_config compression num_init_features bn_size
           drop_rate num_classes small_inputs efficient = Returns model ->
  NoDup (map fst (features model))
  /\ forall name block,
       (name, FBlock block) ∈ features model -> NoDup (map fst block).
Proof.
  unfold __init__. destruct (negb _); [discriminate|].
  set (first :=
         if small_inputs
         then [("conv0", FLayer (Conv2d 3 num_init_features 3 1 1))]
         else [("conv0", FLayer (Conv2d 3 num_init_features 7 2 3));
               ("norm0", FLayer (BatchNorm2d num_init_features));
               ("relu0", FLayer ReLU);
               ("pool0", FLayer (MaxPool2d 3 2 1))]).
  destruct (add_blocks growth_rate compression bn_size drop_rate efficient
                       (Z.of_nat (length block_config)) 0 block_config first
                       num_init_features) as [[children num_features]|]
    eqn:Hadd; [|discriminate].
  pose proof (add_blocks_names _ _ _ _ _ _ _ _ _ _ _ _ Hadd) as Hnames.
  pose proof (add_blocks_blocks _ _ _ _ _ _ _ _ _ _ _ _ Hadd) as Hblocks.
  intros [= <-]. cbn [features fst] in *.
  destruct Hnames as [Hnodup Hfinal].
  - subst first. destruct small_inputs; cbn [map fst];
      repeat (apply NoDup_cons; split);
      rewrite ?not_elem_of_cons; repeat split;
      try discriminate; try apply not_elem_of_nil; apply NoDup_nil_2.
  - subst first. destruct small_inputs; cbn [map fst];
      rewrite ?not_elem_of_cons; repeat split;
      try discriminate; apply not_elem_of_nil.
  - intros j _. subst first. destruct small_inputs; cbn [map fst];
      rewrite ?not_elem_of_cons; repeat split;
      try discriminate; apply not_elem_of_nil.
  - split.
    + rewrite map_app. cbn [map fst]. now apply NoDup_app_singleton.
    + intros name block [Hin | Hin%list_elem_of_singleton]%elem_of_app;
        [|discriminate Hin].
      apply (Hblocks ltac:(subst first; destruct small_inputs;
                           intros ? ? Hc;
                           repeat (apply elem_of_cons in Hc as [Hc|Hc];
                                   [discriminate Hc|]);
                           now apply elem_of_nil in Hc) name block Hin).
Qed.

(** The default network: 3 blocks, 2 transitions, the first convolution
    and the final batch norm are 7 children with 7 names. *)
Lemma module_names_distinct_witness :
  exists model,
    __init__ 12 [16; 16; 16]%Z 0.5%float 24 4 0 10 true false = Returns model
    /\ length (features model) = 7%nat
    /\ NoDup (map fst (features model)).
Proof.
  eexists. split; [reflexivity|]. split; [reflexivity|].
  refine (proj1 (module_names_distinct 12 [16; 16; 16]%Z 0.5%float 24 4 0 10
                   true false _ eq_refl)).
Defined.

End DenseNetFacts.
